(** * Deployment smoke tests and artifact validation

    A shallow embedding of [test_deployment.py] and [validate_deployment.py].

    The scripts are effectful Python: they print, talk to an HTTP service,
    create and delete a temporary file and read the clock.  Every function is
    embedded as a computation in a state-and-exception monad over a [World]
    (file system, console, log of HTTP requests issued).  What the outside
    does (the HTTP service, the JSON decoder of the standard library, the
    temporary-file allocator, the faults of the file system, the clock,
    [str()] of a decoded value) is not fixed: it is a record [Env] of
    oracles, and every general theorem holds for all of them.

    Boundaries of the model:
    - the file system maps the paths that exist to their text; a path that
      exists need not be readable: [open] and [read] of the validator may
      raise on it (a directory, no permission, bytes that do not decode);
    - [print] always succeeds, and [input] returns (the operator presses
      Enter);
    - [NamedTemporaryFile], the [write] and the [close] of the workload file
      are three steps, each of which may raise; the main probe can open and
      read back the file it has itself just written and closed;
    - the JSON decoder may raise any exception (a JSONDecodeError on a text
      that is not JSON, a RecursionError on one nested too deep);
    - [os.unlink] may be refused, as the cleanup of the main probe provides
      for;
    - the HTTP service answers a request as a function of the request and of
      the requests issued before it;
    - [main] starts from the parsed command line. *)

From Stdlib Require Import ZArith String Ascii List Bool Lia.
From Stdlib Require Import Floats.PrimFloat.
From stdpp Require Import gmap strings list pretty.

Set Warnings "-register-all".
Open Scope string_scope.

(** ** Python exceptions *)

(** The exception classes that occur in the scripts or in the libraries they
    call.  [KeyboardInterrupt] derives from [BaseException] only. *)
Inductive exn_class : Type :=
| ConnectionError
| Timeout
| HTTPError
| JSONDecodeError
| FileNotFoundError
| FileExistsError
| PermissionError
| IsADirectoryError
| UnicodeDecodeError
| RecursionError
| OSError
| TypeError
| AttributeError
| KeyError
| KeyboardInterrupt.

Definition exn_class_eqb (a b : exn_class) : bool :=
  match a, b with
  | ConnectionError, ConnectionError | Timeout, Timeout | HTTPError, HTTPError
  | JSONDecodeError, JSONDecodeError | FileNotFoundError, FileNotFoundError
  | FileExistsError, FileExistsError | PermissionError, PermissionError
  | IsADirectoryError, IsADirectoryError | UnicodeDecodeError, UnicodeDecodeError
  | RecursionError, RecursionError
  | OSError, OSError | TypeError, TypeError | AttributeError, AttributeError
  | KeyError, KeyError | KeyboardInterrupt, KeyboardInterrupt => true
  | _, _ => false
  end.

(** [issubclass(c, Exception)] *)
Definition is_Exception (c : exn_class) : bool :=
  match c with
  | KeyboardInterrupt => false
  | _ => true
  end.

(** An exception object: its class and [str(e)]. *)
Record exn : Type := Exn { exn_cls : exn_class; exn_str : string }.

Inductive outcome (A : Type) : Type :=
| Ret (a : A)
| Raise (e : exn).
Arguments Ret {A} a.
Arguments Raise {A} e.

(** ** Decoded JSON values and the Python operations used on them *)

Inductive json : Type :=
| JNull
| JBool (b : bool)
| JInt (n : Z)
| JFloat (f : float)
| JStr (s : string)
| JList (l : list json)
| JDict (d : list (string * json)).

Fixpoint is_substring (needle hay : string) : bool :=
  String.prefix needle hay ||
  match hay with
  | EmptyString => false
  | String _ rest => is_substring needle rest
  end.

Fixpoint dict_lookup {V : Type} (k : string) (d : list (string * V)) : option V :=
  match d with
  | [] => None
  | (k', v) :: rest => if String.eqb k k' then Some v else dict_lookup k rest
  end.

(** [d[k] = v] on an insertion-ordered dict: an existing key keeps its place. *)
Fixpoint dict_set {V : Type} (k : string) (v : V) (d : list (string * V)) : list (string * V) :=
  match d with
  | [] => [(k, v)]
  | (k', v') :: rest =>
      if String.eqb k k' then (k, v) :: rest else (k', v') :: dict_set k v rest
  end.

Definition dict_keys {V : Type} (d : list (string * V)) : list string := map fst d.
Definition dict_values {V : Type} (d : list (string * V)) : list V := map snd d.

Definition type_name (v : json) : string :=
  match v with
  | JNull => "NoneType"
  | JBool _ => "bool"
  | JInt _ => "int"
  | JFloat _ => "float"
  | JStr _ => "str"
  | JList _ => "list"
  | JDict _ => "dict"
  end.

(** [bool(v)] *)
Definition py_truthy (v : json) : bool :=
  match v with
  | JNull => false
  | JBool b => b
  | JInt n => negb (n =? 0)%Z
  | JFloat f => negb (PrimFloat.eqb f 0%float)
  | JStr s => negb (String.eqb s EmptyString)
  | JList l => match l with [] => false | _ => true end
  | JDict d => match d with [] => false | _ => true end
  end.

Definition json_is_str (k : string) (v : json) : bool :=
  match v with
  | JStr s => String.eqb k s
  | _ => false
  end.

(** [k in v] for a string [k] *)
Definition py_contains (k : string) (v : json) : outcome bool :=
  match v with
  | JDict d => Ret (match dict_lookup k d with Some _ => true | None => false end)
  | JList l => Ret (existsb (json_is_str k) l)
  | JStr s => Ret (is_substring k s)
  | _ => Raise (Exn TypeError ("argument of type '" ++ type_name v ++ "' is not iterable"))
  end.

(** [v.get(k, dflt)] *)
Definition py_get (v : json) (k : string) (dflt : json) : outcome json :=
  match v with
  | JDict d => Ret (match dict_lookup k d with Some x => x | None => dflt end)
  | _ => Raise (Exn AttributeError ("'" ++ type_name v ++ "' object has no attribute 'get'"))
  end.

(** [v.keys()] *)
Definition py_keys (v : json) : outcome (list string) :=
  match v with
  | JDict d => Ret (dict_keys d)
  | _ => Raise (Exn AttributeError ("'" ++ type_name v ++ "' object has no attribute 'keys'"))
  end.

(** [v[k]] for a string [k] *)
Definition py_getitem (v : json) (k : string) : outcome json :=
  match v with
  | JDict d =>
      match dict_lookup k d with
      | Some x => Ret x
      | None => Raise (Exn KeyError ("'" ++ k ++ "'"))
      end
  | JStr _ => Raise (Exn TypeError "string indices must be integers")
  | JList _ => Raise (Exn TypeError "list indices must be integers or slices, not str")
  | _ => Raise (Exn TypeError ("'" ++ type_name v ++ "' object is not subscriptable"))
  end.

Definition str_of_bool (b : bool) : string := if b then "True" else "False".

(** ** The world and its oracles *)

Inductive http_method : Type := GET | POST.

Record upload : Type := Upload {
  field_name : string;
  file_name : string;
  file_body : string;
  media_type : string
}.

Record Request : Type := MkRequest {
  req_method : http_method;
  req_url : string;
  req_timeout : Z;
  req_files : list upload;
  req_data : list (string * string)
}.

Record Response : Type := MkResponse {
  status_code : Z;
  reason : string;
  url : string;
  text : string
}.

Inductive http_outcome : Type :=
| Responds (r : Response)
| Fails (e : exn).

Record World : Type := MkWorld {
  files : gmap string string;   (* path -> content of the regular files *)
  stdout : list string;         (* one entry per print call, oldest first *)
  sent : list Request           (* HTTP requests issued, oldest first *)
}.

Record Env : Type := MkEnv {
  (* what requests.get / requests.post does with a request, given the
     requests issued before it: a response, or the exception it raises *)
  server : list Request -> Request -> http_outcome;
  (* the JSON decoder on a text: the decoded value, or the exception it
     raises (a JSONDecodeError on a text that is not JSON, a RecursionError
     on one nested too deep) *)
  json_loads : string -> exn + json;
  (* tempfile.NamedTemporaryFile in a file system: the name it settles on, or
     the exception it raises (FileNotFoundError when no temporary directory
     is usable) *)
  mkstemp : gmap string string -> exn + string;
  (* the exception write raises on the file object of a path, if it does *)
  write_fault : gmap string string -> string -> option exn;
  (* the exception close raises on the file object of a path when its flush
     fails (no space left on the device), with what of the text has reached
     the file *)
  close_fault : gmap string string -> string -> option (exn * string);
  (* the exception open(p, 'r') or the read that follows raises on a path
     that exists (IsADirectoryError, PermissionError, UnicodeDecodeError) *)
  read_fault : gmap string string -> string -> option exn;
  (* the exception os.unlink raises on a path of a file system, if it does
     (a read-only directory, a file locked by another process) *)
  unlink_fault : gmap string string -> string -> option exn;
  (* time.time() *)
  time_time : World -> float;
  (* str(v) of a decoded value *)
  py_str : json -> string;
  (* the characters (code points) of a str *)
  py_chars : string -> list string;
  (* format(x, '.1f') *)
  fmt_1f : float -> string
}.

(** ** The monad of the scripts: state passing with exceptions *)

Definition M (A : Type) : Type := World -> outcome A * World.

Definition ret {A : Type} (a : A) : M A := fun w => (Ret a, w).

Definition raise {A : Type} (e : exn) : M A := fun w => (Raise e, w).

Definition bind {A B : Type} (m : M A) (k : A -> M B) : M B :=
  fun w =>
    match m w with
    | (Ret a, w') => k a w'
    | (Raise e, w') => (Raise e, w')
    end.

Definition lift {A : Type} (o : outcome A) : M A := fun w => (o, w).

Declare Scope py_scope.
Delimit Scope py_scope with py.
Notation "x <- m ;; k" := (bind m (fun x => k))
  (at level 100, m at next level, right associativity) : py_scope.
Notation "m ;; k" := (bind m (fun _ => k))
  (at level 100, right associativity) : py_scope.
Open Scope py_scope.

(** [try: body  except <classes>: handler]; an exception of another class
    passes through. *)
Definition try_except {A : Type} (catches : exn_class -> bool)
    (body : M A) (handler : exn -> M A) : M A :=
  fun w =>
    match body w with
    | (Ret a, w') => (Ret a, w')
    | (Raise e, w') => if catches (exn_cls e) then handler e w' else (Raise e, w')
    end.

(** [try: body  finally: cleanup]: the cleanup always runs; the result of the
    body stands unless the cleanup itself raises. *)
Definition try_finally {A : Type} (body : M A) (cleanup : M unit) : M A :=
  fun w =>
    let (r, w') := body w in
    match cleanup w' with
    | (Ret _, w'') => (r, w'')
    | (Raise e, w'') => (Raise e, w'')
    end.

Definition catch_Exception : exn_class -> bool := is_Exception.
Definition catch_all : exn_class -> bool := fun _ => true.

Definition print_line (s : string) : M unit :=
  fun w => (Ret tt, MkWorld (files w) (stdout w ++ [s]) (sent w)).

(** [os.path.exists] *)
Definition path_exists (p : string) : M bool :=
  fun w => (Ret (bool_decide (is_Some (files w !! p))), w).

(** [open(p, 'rb')] of the file the main probe has just written, read by
    [requests.post]: its content, or FileNotFoundError *)
Definition open_rb (p : string) : M string :=
  fun w =>
    match files w !! p with
    | Some c => (Ret c, w)
    | None =>
        (Raise (Exn FileNotFoundError
                  ("[Errno 2] No such file or directory: '" ++ p ++ "'")), w)
    end.

(** ** test_deployment.py *)

Record ProbeResult : Type := MkProbe {
  status : string;
  data : option json;      (* the "data" entry, None when the key is absent *)
  error : option string    (* the "error" entry, None when the key is absent *)
}.

(** [{"status": "success", "data": result}] *)
Definition probe_success (result : json) : ProbeResult :=
  MkProbe "success" (Some result) None.

(** [{"status": "error", "error": str(e)}] *)
Definition probe_error (e : exn) : ProbeResult :=
  MkProbe "error" None (Some (exn_str e)).

Definition questions_content : string :=
  "Analyze the GDP data from https://en.wikipedia.org/wiki/List_of_countries_by_GDP_(nominal)

Questions to answer:
1. Which country has the highest GDP?
2. What are the top 10 countries by GDP?
3. What is the total GDP of the top 5 countries?
4. Create a visualization showing GDP comparison of top 10 countries
5. Which countries have GDP over $5 trillion?".

Section Harness.

Variable E : Env.

(** [requests.get] and [requests.post]: the request is issued (and logged),
    the service answers or the call raises. *)
Definition requests_send (rq : Request) : M Response :=
  fun w =>
    let w' := MkWorld (files w) (stdout w) (sent w ++ [rq]) in
    match server E (sent w) rq with
    | Responds r => (Ret r, w')
    | Fails e => (Raise e, w')
    end.

Definition requests_get (u : string) (timeout : Z) : M Response :=
  requests_send (MkRequest GET u timeout [] []).

Definition requests_post (u : string) (fs : list upload)
    (form : list (string * string)) (timeout : Z) : M Response :=
  requests_send (MkRequest POST u timeout fs form).

(** [Response.raise_for_status] of the requests library: HTTPError for the
    status codes 400 to 599, nothing otherwise. *)
Definition raise_for_status (r : Response) : M unit :=
  if (400 <=? status_code r)%Z && (status_code r <? 500)%Z then
    raise (Exn HTTPError
             (pretty (status_code r) ++ " Client Error: " ++ reason r
              ++ " for url: " ++ url r))
  else if (500 <=? status_code r)%Z && (status_code r <? 600)%Z then
    raise (Exn HTTPError
             (pretty (status_code r) ++ " Server Error: " ++ reason r
              ++ " for url: " ++ url r))
  else ret tt.

(** [with open(p, 'r') as f: ... f.read()] and [json.load(f)] up to the
    decoding: FileNotFoundError on a path that does not exist, the exception
    of [open] or of the read on one that cannot be read, the text
    otherwise. *)
Definition read_file (p : string) : M string :=
  fun w =>
    match files w !! p with
    | None =>
        (Raise (Exn FileNotFoundError
                  ("[Errno 2] No such file or directory: '" ++ p ++ "'")), w)
    | Some c =>
        match read_fault E (files w) p with
        | Some e => (Raise e, w)
        | None => (Ret c, w)
        end
    end.

(** The decoding of [json.load] and of [Response.json] *)
Definition decode_json (s : string) : M json :=
  match json_loads E s with
  | inr v => ret v
  | inl e => raise e
  end.

(** [Response.json] *)
Definition response_json (r : Response) : M json := decode_json (text r).

(** [tempfile.NamedTemporaryFile(mode='w', suffix='.txt', delete=False)]: an
    empty file under a name that was free; the name stands for the file
    object. *)
Definition named_temporary_file : M string :=
  fun w =>
    match mkstemp E (files w) with
    | inl e => (Raise e, w)
    | inr p =>
        match files w !! p with
        | Some _ =>
            (Raise (Exn FileExistsError "[Errno 17] No usable temporary file name found"), w)
        | None => (Ret p, MkWorld (<[p := EmptyString]> (files w)) (stdout w) (sent w))
        end
    end.

(** [temp_file.write(content)]: the file holds the text, unless the write
    raises. *)
Definition file_write (p content : string) : M unit :=
  fun w =>
    match write_fault E (files w) p with
    | Some e => (Raise e, w)
    | None => (Ret tt, MkWorld (<[p := content]> (files w)) (stdout w) (sent w))
    end.

(** [temp_file.close()]: when the flush fails the exception is raised and the
    file holds what has reached it. *)
Definition file_close (p : string) : M unit :=
  fun w =>
    match close_fault E (files w) p with
    | Some (e, flushed) =>
        (Raise e, MkWorld (<[p := flushed]> (files w)) (stdout w) (sent w))
    | None => (Ret tt, w)
    end.

Definition create_test_questions_file : M string :=
  let content := questions_content in
  temp_file <- named_temporary_file ;;
  file_write temp_file content ;;
  file_close temp_file ;;
  ret temp_file.

(** [os.unlink] *)
Definition os_unlink (p : string) : M unit :=
  fun w =>
    match unlink_fault E (files w) p with
    | Some e => (Raise e, w)
    | None =>
        match files w !! p with
        | Some _ => (Ret tt, MkWorld (delete p (files w)) (stdout w) (sent w))
        | None =>
            (Raise (Exn FileNotFoundError
                      ("[Errno 2] No such file or directory: '" ++ p ++ "'")), w)
        end
    end.

Definition test_health_endpoint (base_url : string) : M ProbeResult :=
  print_line "🏥 Testing health endpoint..." ;;
  try_except catch_Exception
    (response <- requests_get (base_url ++ "/health") 30 ;;
     raise_for_status response ;;
     result <- response_json response ;;
     print_line "✅ Health check passed" ;;
     ret (probe_success result))
    (fun e =>
       print_line ("❌ Health check failed: " ++ exn_str e) ;;
       ret (probe_error e)).

Definition test_capabilities_endpoint (base_url : string) : M ProbeResult :=
  print_line "⚙️ Testing capabilities endpoint..." ;;
  try_except catch_Exception
    (response <- requests_get (base_url ++ "/api/workflow-capabilities") 30 ;;
     raise_for_status response ;;
     result <- response_json response ;;
     print_line "✅ Capabilities check passed" ;;
     ret (probe_success result))
    (fun e =>
       print_line ("❌ Capabilities check failed: " ++ exn_str e) ;;
       ret (probe_error e)).

Definition test_main_api_endpoint (base_url : string) : M ProbeResult :=
  print_line "🔍 Testing main API endpoint..." ;;
  questions_file_path <- create_test_questions_file ;;
  try_finally
    (try_except catch_Exception
       (questions_file <- open_rb questions_file_path ;;
        let fs := [Upload "questions_txt" "questions.txt" questions_file "text/plain"] in
        let form := [("enable_iterative_reasoning", "false"); ("enable_logging", "true")] in
        print_line "📤 Uploading test data..." ;;
        response <- requests_post (base_url ++ "/api/") fs form 300 ;;
        raise_for_status response ;;
        result <- response_json response ;;
        print_line "✅ Main API test passed" ;;
        ret (probe_success result))
       (fun e =>
          print_line ("❌ Main API test failed: " ++ exn_str e) ;;
          ret (probe_error e)))
    (try_except catch_all (os_unlink questions_file_path) (fun _ => ret tt)).


(** An entry of an environment bundle: a probe result (a dict) or the
    duration (a float). *)
Inductive bundle_value : Type :=
| BProbe (p : ProbeResult)
| BFloat (f : float).

(** [len(v)] *)
Definition py_len (v : json) : outcome Z :=
  match v with
  | JList l => Ret (Z.of_nat (length l))
  | JDict d => Ret (Z.of_nat (length d))
  | JStr s => Ret (Z.of_nat (length (py_chars E s)))
  | _ => Raise (Exn TypeError ("object of type '" ++ type_name v ++ "' has no len()"))
  end.

(** [iter(v)]: what a [for] loop over [v] visits *)
Definition py_iter (v : json) : outcome (list json) :=
  match v with
  | JList l => Ret l
  | JDict d => Ret (map JStr (dict_keys d))
  | JStr s => Ret (map JStr (py_chars E s))
  | _ => Raise (Exn TypeError ("'" ++ type_name v ++ "' object is not iterable"))
  end.

Fixpoint str_items (l : list json) : outcome (list string) :=
  match l with
  | [] => Ret []
  | JStr s :: rest =>
      match str_items rest with
      | Ret ss => Ret (s :: ss)
      | Raise e => Raise e
      end
  | x :: _ =>
      Raise (Exn TypeError ("sequence item: expected str instance, " ++ type_name x ++ " found"))
  end.

(** [sep.join(v)] *)
Definition py_join (sep : string) (v : json) : outcome string :=
  match py_iter v with
  | Raise _ => Raise (Exn TypeError "can only join an iterable")
  | Ret items =>
      match str_items items with
      | Ret ss => Ret (String.concat sep ss)
      | Raise e => Raise e
      end
  end.

(** [r['data']] *)
Definition probe_data (r : ProbeResult) : M json :=
  match data r with
  | Some d => ret d
  | None => raise (Exn KeyError "'data'")
  end.

Fixpoint for_each {A : Type} (l : list A) (body : A -> M unit) : M unit :=
  match l with
  | [] => ret tt
  | x :: rest => body x ;; for_each rest body
  end.

Definition nl : string := String (ascii_of_nat 10) EmptyString.
Definition rule50 : string := "==================================================".

Definition test_local_server : M (list (string * bundle_value)) :=
  let base_url := "http://localhost:8000" in
  print_line ("🧪 Testing local server at " ++ base_url) ;;
  print_line (nl ++ rule50) ;;
  print_line "LOCAL SERVER TESTS" ;;
  print_line rule50 ;;
  (* Test health *)
  health_result <- test_health_endpoint base_url ;;
  print_line ("Health: " ++ status health_result) ;;
  (if String.eqb (status health_result) "success" then
     d <- probe_data health_result ;;
     orchestrator <- lift (py_get d "orchestrator" (JStr "unknown")) ;;
     print_line ("  Orchestrator: " ++ py_str E orchestrator) ;;
     d <- probe_data health_result ;;
     workflows_available <- lift (py_get d "workflows_available" (JInt 0)) ;;
     print_line ("  Workflows: " ++ py_str E workflows_available)
   else ret tt) ;;
  (* Test capabilities *)
  cap_result <- test_capabilities_endpoint base_url ;;
  print_line ("Capabilities: " ++ status cap_result) ;;
  (if String.eqb (status cap_result) "success" then
     d <- probe_data cap_result ;;
     workflows <- lift (py_get d "available_workflows" (JList [])) ;;
     n <- lift (py_len workflows) ;;
     print_line ("  Available workflows: " ++ pretty n) ;;
     items <- lift (py_iter workflows) ;;
     for_each items (fun workflow => print_line ("    - " ++ py_str E workflow))
   else ret tt) ;;
  (* Test main API *)
  api_result <- test_main_api_endpoint base_url ;;
  print_line ("Main API: " ++ status api_result) ;;
  (if String.eqb (status api_result) "success" then
     d <- probe_data api_result ;;
     task_id <- lift (py_get d "task_id" (JStr "unknown")) ;;
     workflow_type <- lift (py_get d "workflow_type" (JStr "unknown")) ;;
     status_ <- lift (py_get d "status" (JStr "unknown")) ;;
     print_line ("  Task ID: " ++ py_str E task_id) ;;
     print_line ("  Workflow: " ++ py_str E workflow_type) ;;
     print_line ("  Status: " ++ py_str E status_) ;;
     (* Check if we have results *)
     result <- lift (py_get d "result" (JDict [])) ;;
     if py_truthy result then
       keys <- lift (py_keys result) ;;
       print_line ("  Result keys: " ++ py_str E (JList (map JStr keys))) ;;
       has_results <- lift (py_contains "results" result) ;;
       (if has_results then
          r <- lift (py_getitem result "results") ;;
          print_line ("  Analysis results available: " ++ str_of_bool (py_truthy r))
        else ret tt) ;;
       has_plot <- lift (py_contains "plot_base64" result) ;;
       (if has_plot then
          r <- lift (py_getitem result "plot_base64") ;;
          print_line ("  Visualization generated: " ++ str_of_bool (py_truthy r))
        else ret tt)
     else ret tt
   else ret tt) ;;
  ret [("health", BProbe health_result);
       ("capabilities", BProbe cap_result);
       ("main_api", BProbe api_result)].

Definition now : M float := fun w => (Ret (time_time E w), w).

Definition test_vercel_deployment (vercel_url : string) : M (list (string * bundle_value)) :=
  print_line ("🚀 Testing Vercel deployment at " ++ vercel_url) ;;
  print_line (nl ++ rule50) ;;
  print_line "VERCEL DEPLOYMENT TESTS" ;;
  print_line rule50 ;;
  (* Test health *)
  health_result <- test_health_endpoint vercel_url ;;
  print_line ("Health: " ++ status health_result) ;;
  (if String.eqb (status health_result) "success" then
     d <- probe_data health_result ;;
     platform <- lift (py_get d "platform" (JStr "unknown")) ;;
     print_line ("  Platform: " ++ py_str E platform) ;;
     orchestrator <- lift (py_get d "orchestrator" (JStr "unknown")) ;;
     print_line ("  Orchestrator: " ++ py_str E orchestrator) ;;
     workflows_available <- lift (py_get d "workflows_available" (JInt 0)) ;;
     print_line ("  Workflows: " ++ py_str E workflows_available)
   else ret tt) ;;
  (* Test capabilities *)
  cap_result <- test_capabilities_endpoint vercel_url ;;
  print_line ("Capabilities: " ++ status cap_result) ;;
  (if String.eqb (status cap_result) "success" then
     d <- probe_data cap_result ;;
     workflows <- lift (py_get d "available_workflows" (JList [])) ;;
     n <- lift (py_len workflows) ;;
     print_line ("  Available workflows: " ++ pretty n) ;;
     platform <- lift (py_get d "platform" (JStr "unknown")) ;;
     print_line ("  Platform: " ++ py_str E platform)
   else ret tt) ;;
  (* Test main API (this might take longer on cold start) *)
  print_line "⏳ Testing main API (may take longer on cold start)..." ;;
  start_time <- now ;;
  api_result <- test_main_api_endpoint vercel_url ;;
  end_time <- now ;;
  let duration := PrimFloat.sub end_time start_time in
  print_line ("Main API: " ++ status api_result ++ " (took " ++ fmt_1f E duration ++ "s)") ;;
  (if String.eqb (status api_result) "success" then
     d <- probe_data api_result ;;
     task_id <- lift (py_get d "task_id" (JStr "unknown")) ;;
     workflow_type <- lift (py_get d "workflow_type" (JStr "unknown")) ;;
     status_ <- lift (py_get d "status" (JStr "unknown")) ;;
     print_line ("  Task ID: " ++ py_str E task_id) ;;
     print_line ("  Workflow: " ++ py_str E workflow_type) ;;
     print_line ("  Status: " ++ py_str E status_) ;;
     (* Check processing info *)
     proc_info <- lift (py_get d "processing_info" (JDict [])) ;;
     if py_truthy proc_info then
       platform <- lift (py_get proc_info "platform" (JStr "unknown")) ;;
       print_line ("  Platform: " ++ py_str E platform) ;;
       features <- lift (py_get proc_info "enhanced_features" (JList [])) ;;
       joined <- lift (py_join ", " features) ;;
       print_line ("  Features: " ++ joined)
     else ret tt
   else ret tt) ;;
  ret [("health", BProbe health_result);
       ("capabilities", BProbe cap_result);
       ("main_api", BProbe api_result);
       ("duration", BFloat duration)].

(** The parsed command line of [main]. *)
Record Args : Type := MkArgs {
  arg_local : bool;             (* --local *)
  arg_vercel : option string;   (* --vercel URL, None when not given *)
  arg_both : bool               (* --both *)
}.

(** Truth value of [args.vercel]: a string that is given and not empty. *)
Definition vercel_given (a : Args) : option string :=
  match arg_vercel a with
  | Some u => if String.eqb u EmptyString then None else Some u
  | None => None
  end.

(** [input(prompt)]: the prompt is written, the operator presses Enter. *)
Definition input_line (prompt : string) : M unit := print_line prompt.

Definition example_url : string := "https://your-project-name.vercel.app".

(** The first half of [main]: the runs selected by the flags, collected in
    the [results] dict. *)
Definition collect_results (args : Args)
  : M (list (string * list (string * bundle_value))) :=
  print_line "🧪 API Testing Suite for TDS Project2" ;;
  print_line rule50 ;;
  let results := [] in
  results <-
    (if arg_local args || arg_both args then
       print_line (nl ++ "🏠 Starting local server tests...") ;;
       print_line "Make sure your local server is running with:" ;;
       print_line "  uvicorn api.index:app --reload" ;;
       print_line EmptyString ;;
       input_line "Press Enter when server is ready..." ;;
       b <- test_local_server ;;
       ret (dict_set "local" b results)
     else ret results) ;;
  results <-
    (match vercel_given args with
     | Some u =>
         print_line (nl ++ "🚀 Starting Vercel deployment tests...") ;;
         b <- test_vercel_deployment u ;;
         ret (dict_set "vercel" b results)
     | None => ret results
     end) ;;
  results <-
    (if arg_both args then
       print_line (nl ++ "🚀 Starting example Vercel deployment tests...") ;;
       print_line ("Testing example URL: " ++ example_url) ;;
       print_line "(This will fail unless you update the URL)" ;;
       b <- test_vercel_deployment example_url ;;
       ret (dict_set "vercel" b results)
     else ret results) ;;
  ret results.

Definition upper_ascii (c : ascii) : ascii :=
  let n := nat_of_ascii c in
  if (97 <=? n)%nat && (n <=? 122)%nat then ascii_of_nat (n - 32) else c.

(** [str.upper] on the (ASCII) environment names *)
Fixpoint upper (s : string) : string :=
  match s with
  | EmptyString => EmptyString
  | String c rest => String (upper_ascii c) (upper rest)
  end.

Definition is_success (p : ProbeResult) : bool := String.eqb (status p) "success".

(** The values of a bundle that pass [isinstance(r, dict)]. *)
Definition bundle_probes (b : list (string * bundle_value)) : list ProbeResult :=
  flat_map (fun v => match v with BProbe p => [p] | BFloat _ => [] end) (dict_values b).

(** [all(r['status'] == 'success' for r in b.values() if isinstance(r, dict))] *)
Definition all_success (b : list (string * bundle_value)) : bool :=
  forallb is_success (bundle_probes b).

Definition summary_entry (entry : string * bundle_value) : M unit :=
  let (test_name, test_result) := entry in
  if String.eqb test_name "duration" then ret tt
  else
    match test_result with
    | BFloat _ => raise (Exn TypeError "'float' object is not subscriptable")
    | BProbe p =>
        let status_ := status p in
        let emoji := if String.eqb status_ "success" then "✅" else "❌" in
        print_line ("  " ++ emoji ++ " " ++ test_name ++ ": " ++ status_) ;;
        if String.eqb status_ "error" then
          print_line ("    Error: " ++ match error p with Some s => s | None => "Unknown" end)
        else ret tt
    end.

Definition print_summary (results : list (string * list (string * bundle_value))) : M unit :=
  print_line (nl ++ rule50) ;;
  print_line "TEST SUMMARY" ;;
  print_line rule50 ;;
  for_each results (fun '(env, env_results) =>
    print_line (nl ++ upper env ++ " Environment:") ;;
    for_each env_results summary_entry).

Definition local_passed_line : string :=
  "✅ Local tests passed - ready for Vercel deployment".
Definition local_failed_line : string :=
  "❌ Local tests failed - fix issues before deploying".
Definition vercel_ok_line : string := "✅ Vercel deployment working correctly".
Definition vercel_bad_line : string := "❌ Vercel deployment has issues".
Definition cold_start_line (duration : float) : string :=
  "⏳ Cold start took " ++ fmt_1f E duration ++ "s - this is normal for first request".

(** The [Next steps] block that closes [main]. *)
Definition next_steps (results : list (string * list (string * bundle_value))) : M unit :=
  print_line (nl ++ "📋 Next steps:") ;;
  (if match dict_lookup "local" results with
      | Some b => all_success b
      | None => false
      end
   then
     print_line local_passed_line ;;
     print_line "   Run: deploy-vercel.bat (Windows) or deploy-vercel.sh (Linux/Mac)"
   else
     print_line local_failed_line ;;
     print_line "   Check dependencies: pip install -r requirements-vercel.txt" ;;
     print_line "   Check server: uvicorn api.index:app --reload") ;;
  match dict_lookup "vercel" results with
  | Some b =>
      let vercel_success := all_success b in
      if vercel_success then
        print_line vercel_ok_line ;;
        match dict_lookup "duration" b with
        | Some (BFloat duration) =>
            if PrimFloat.ltb 10%float duration
            then print_line (cold_start_line duration)
            else ret tt
        | Some (BProbe _) =>
            raise (Exn TypeError "'>' not supported between instances of 'dict' and 'int'")
        | None => ret tt   (* the default 0 is not above 10 *)
        end
      else
        print_line vercel_bad_line ;;
        print_line "   Check environment variables in Vercel dashboard" ;;
        print_line "   Check deployment logs in Vercel"
  | None => ret tt
  end.

Definition main (args : Args) : M unit :=
  results <- collect_results args ;;
  print_summary results ;;
  next_steps results.

(** ** validate_deployment.py *)

Definition required_files : list (string * string) :=
  [("vercel.json", "Vercel configuration");
   ("api/index.py", "Main FastAPI serverless function");
   ("requirements-vercel.txt", "Python dependencies for Vercel");
   ("README-vercel.md", "Deployment documentation");
   ("test-vercel.html", "Web testing interface");
   ("example-questions.txt", "Example questions file")].

(** The loop over [required_files], with its accumulator [missing_files]. *)
Fixpoint check_required (l : list (string * string)) (missing_files : list string)
  : M (list string) :=
  match l with
  | [] => ret missing_files
  | (file_path, description) :: rest =>
      present <- path_exists file_path ;;
      if present then
        print_line ("✅ " ++ file_path ++ " - " ++ description) ;;
        check_required rest missing_files
      else
        print_line ("❌ " ++ file_path ++ " - " ++ description ++ " (MISSING)") ;;
        check_required rest (missing_files ++ [file_path])
  end.

Definition config_valid_line : string := "✅ vercel.json - Valid JSON syntax".
Definition config_sections_line : string := "✅ vercel.json - Has required builds and routes".
Definition config_no_sections_line : string :=
  "❌ vercel.json - Missing builds or routes configuration".
Definition config_not_found_line : string := "❌ vercel.json - File not found".
Definition config_invalid_line (e : exn) : string :=
  "❌ vercel.json - Invalid JSON: " ++ exn_str e.

(** [try: ... except FileNotFoundError: ... except json.JSONDecodeError as e: ...]
    around the parse of vercel.json *)
Definition check_config : M unit :=
  try_except
    (fun c => exn_class_eqb c FileNotFoundError || exn_class_eqb c JSONDecodeError)
    (f <- read_file "vercel.json" ;;
     config <- decode_json f ;;
     print_line config_valid_line ;;
     (* Check required fields *)
     has_builds <- lift (py_contains "builds" config) ;;
     both <- (if has_builds then lift (py_contains "routes" config) else ret false) ;;
     if both then print_line config_sections_line
     else print_line config_no_sections_line)
    (fun e =>
       if exn_class_eqb (exn_cls e) FileNotFoundError
       then print_line config_not_found_line
       else print_line (config_invalid_line e)).

Definition required_imports : list string :=
  ["FastAPI"; "UploadFile"; "File"; "HTTPException"].

Fixpoint check_imports_loop (content : string) (l : list string)
    (missing_imports : list string) : M (list string) :=
  match l with
  | [] => ret missing_imports
  | imp :: rest =>
      if is_substring imp content then
        print_line ("✅ api/index.py - Has " ++ imp ++ " import") ;;
        check_imports_loop content rest missing_imports
      else
        print_line ("❌ api/index.py - Missing " ++ imp ++ " import") ;;
        check_imports_loop content rest (missing_imports ++ [imp])
  end.

Definition check_imports : M unit :=
  try_except (fun c => exn_class_eqb c FileNotFoundError)
    (content <- read_file "api/index.py" ;;
     check_imports_loop content required_imports [] ;;
     ret tt)
    (fun _ => print_line "❌ api/index.py - File not found").

Definition validate_vercel_files : M bool :=
  print_line "🔍 Validating Vercel deployment files..." ;;
  missing_files <- check_required required_files [] ;;
  (* Validate vercel.json syntax *)
  check_config ;;
  (* Check api/index.py imports *)
  check_imports ;;
  (* Summary *)
  print_line (nl ++ rule50) ;;
  print_line "VALIDATION SUMMARY" ;;
  print_line rule50 ;;
  match missing_files with
  | _ :: _ =>
      print_line ("❌ Missing files: " ++ String.concat ", " missing_files) ;;
      ret false
  | [] =>
      print_line "✅ All required files present" ;;
      print_line (nl ++ "📋 Ready for Vercel deployment!") ;;
      print_line (nl ++ "Next steps:") ;;
      print_line "1. Install Vercel CLI: npm install -g vercel" ;;
      print_line "2. Login to Vercel: vercel login" ;;
      print_line "3. Deploy: vercel --prod" ;;
      print_line "4. Set environment variables in Vercel dashboard:" ;;
      print_line "   - AIPIPE_API_KEY (recommended)" ;;
      print_line "   - OPENAI_API_KEY (alternative)" ;;
      print_line "5. Test deployment with test-vercel.html" ;;
      ret true
  end.

End Harness.

(** ** Vocabulary of the statements *)

(** The three probes, by name. *)
Inductive probe : Type := Health | Capabilities | MainApi.

Definition run_probe (E : Env) (pr : probe) (base_url : string) : M ProbeResult :=
  match pr with
  | Health => test_health_endpoint E base_url
  | Capabilities => test_capabilities_endpoint E base_url
  | MainApi => test_main_api_endpoint E base_url
  end.

(** The request each probe issues. *)
Definition health_request (base_url : string) : Request :=
  MkRequest GET (base_url ++ "/health") 30 [] [].

Definition capabilities_request (base_url : string) : Request :=
  MkRequest GET (base_url ++ "/api/workflow-capabilities") 30 [] [].

Definition main_request (base_url : string) : Request :=
  MkRequest POST (base_url ++ "/api/") 300
    [Upload "questions_txt" "questions.txt" questions_content "text/plain"]
    [("enable_iterative_reasoning", "false"); ("enable_logging", "true")].

Definition probe_request (pr : probe) (base_url : string) : Request :=
  match pr with
  | Health => health_request base_url
  | Capabilities => capabilities_request base_url
  | MainApi => main_request base_url
  end.

(** The HTTP call inside a probe's [try]: send, [raise_for_status], [json()]. *)
Definition http_call (E : Env) (rq : Request) : M json :=
  response <- requests_send E rq ;;
  raise_for_status response ;;
  response_json E response.

(** What [except Exception] makes of the outcome of the HTTP call. *)
Definition probe_outcome (o : outcome json) : outcome ProbeResult :=
  match o with
  | Ret v => Ret (probe_success v)
  | Raise e => if is_Exception (exn_cls e) then Ret (probe_error e) else Raise e
  end.

(** The temporary file of the main probe can be created in [fs] under [p]:
    [NamedTemporaryFile] settles on the free name [p], and neither the write
    nor the close raises. *)
Definition tmp_created (E : Env) (fs : gmap string string) (p : string) : Prop :=
  mkstemp E fs = inr p /\ fs !! p = None /\
  write_fault E (<[p := EmptyString]> fs) p = None /\
  close_fault E (<[p := questions_content]> (<[p := EmptyString]> fs)) p = None.

(** What a probe needs before its HTTP call is issued at all. *)
Definition probe_ready (E : Env) (pr : probe) (w : World) : Prop :=
  match pr with
  | MainApi => exists p, tmp_created E (files w) p
  | _ => True
  end.

(** A field of a probe result is populated when its key is there and its
    value is not null. *)
Definition data_populated (r : ProbeResult) : bool :=
  match data r with
  | Some JNull | None => false
  | Some _ => true
  end.

Definition error_populated (r : ProbeResult) : bool :=
  match error r with
  | Some _ => true
  | None => false
  end.

(** The lines a computation adds to the console. *)
Definition printed_by {A : Type} (m : M A) (w : World) : list string :=
  drop (length (stdout w)) (stdout (snd (m w))).

(** The requests a computation issues. *)
Definition sent_by {A : Type} (m : M A) (w : World) : list Request :=
  drop (length (sent w)) (sent (snd (m w))).

(** ** Concrete environments, for the examples *)

Definition dq : string := String (ascii_of_nat 34) EmptyString.
Definition quoted (s : string) : string := dq ++ s ++ dq.

(** A vercel.json with both sections. *)
Definition config_text : string :=
  "{" ++ quoted "builds" ++ ": [], " ++ quoted "routes" ++ ": []}".

(** A decoder fixed on the handful of documents the examples use; any other
    text is reported as undecodable. *)
Definition sample_json_loads (s : string) : exn + json :=
  if String.eqb s "{}" then inr (JDict [])
  else if String.eqb s "[]" then inr (JList [])
  else if String.eqb s "null" then inr JNull
  else if String.eqb s "42" then inr (JInt 42)
  else if String.eqb s ("[" ++ quoted "builds" ++ ", " ++ quoted "routes" ++ "]")
       then inr (JList [JStr "builds"; JStr "routes"])
  else if String.eqb s config_text
       then inr (JDict [("builds", JList []); ("routes", JList [])])
  else inl (Exn JSONDecodeError "Expecting value: line 1 column 1 (char 0)").

Definition sample_py_str (v : json) : string :=
  match v with
  | JNull => "None"
  | JBool b => str_of_bool b
  | JInt n => pretty n
  | JFloat _ => "<float>"
  | JStr s => s
  | JList _ => "[...]"
  | JDict _ => "{...}"
  end.

Definition sample_chars (s : string) : list string :=
  map (fun c => String c EmptyString) (list_ascii_of_string s).

(** A clock that shows 100.0 until the third request is out and 112.5 after. *)
Definition sample_clock (w : World) : float :=
  if (length (sent w) <? 3)%nat then 100%float else 112.5%float.

(** The two durations the examples meet, to one decimal. *)
Definition sample_fmt_1f (f : float) : string :=
  if PrimFloat.eqb f 12.5%float then "12.5" else "0.0".

Definition tmp_path : string := "/tmp/tmpk3v9x2ab.txt".

Definition no_fault : gmap string string -> string -> option exn := fun _ _ => None.

(** An environment in which the temporary file is created under [tmp_path]
    and every file that exists can be read. *)
Definition make_env (srv : list Request -> Request -> http_outcome)
    (fault : gmap string string -> string -> option exn) : Env :=
  MkEnv srv sample_json_loads (fun _ => inr tmp_path) no_fault (fun _ _ => None)
        no_fault fault sample_clock sample_py_str sample_chars sample_fmt_1f.

(** No server is listening. *)
Definition offline : Env :=
  make_env (fun _ _ => Fails (Exn ConnectionError "Connection refused")) no_fault.

(** Every endpoint answers 200 with an empty JSON object. *)
Definition healthy : Env :=
  make_env (fun _ rq => Responds (MkResponse 200 "OK" (req_url rq) "{}")) no_fault.

(** As [healthy], but the temporary directory refuses deletions. *)
Definition locked_tmp : Env :=
  make_env (fun _ rq => Responds (MkResponse 200 "OK" (req_url rq) "{}"))
           (fun _ p => Some (Exn PermissionError
                               ("[Errno 13] Permission denied: '" ++ p ++ "'"))).

(** Every endpoint answers 200 with an empty JSON array. *)
Definition array_server : Env :=
  make_env (fun _ rq => Responds (MkResponse 200 "OK" (req_url rq) "[]")) no_fault.

(** Every endpoint answers 500. *)
Definition failing_server : Env :=
  make_env (fun _ rq => Responds (MkResponse 500 "Internal Server Error" (req_url rq) "{}"))
           no_fault.

Definition empty_world : World := MkWorld ∅ [] [].

(** A project directory holding the six required files, with the given
    vercel.json. *)
Definition project_with (config : string) : World :=
  MkWorld
    (<["vercel.json" := config]>
     (<["api/index.py" := "from fastapi import FastAPI, UploadFile, File, HTTPException"]>
      (<["requirements-vercel.txt" := "fastapi"]>
       (<["README-vercel.md" := "# Deploy"]>
        (<["test-vercel.html" := "<html></html>"]>
         (<["example-questions.txt" := "What is the GDP?"]> ∅))))))
    [] [].

(** ** The lines of the closing guidance, branch by branch *)

(** The condition of the local branch:
    ['local' in results and all(...)]. *)
Definition local_ok (results : list (string * list (string * bundle_value))) : bool :=
  match dict_lookup "local" results with
  | Some b => all_success b
  | None => false
  end.

Definition local_lines (results : list (string * list (string * bundle_value)))
  : list string :=
  if local_ok results then
    [local_passed_line;
     "   Run: deploy-vercel.bat (Windows) or deploy-vercel.sh (Linux/Mac)"]
  else
    [local_failed_line;
     "   Check dependencies: pip install -r requirements-vercel.txt";
     "   Check server: uvicorn api.index:app --reload"].

Definition vercel_lines (E : Env) (results : list (string * list (string * bundle_value)))
  : list string :=
  match dict_lookup "vercel" results with
  | None => []
  | Some b =>
      if all_success b then
        vercel_ok_line ::
        match dict_lookup "duration" b with
        | Some (BFloat duration) =>
            if PrimFloat.ltb 10%float duration then [cold_start_line E duration] else []
        | _ => []
        end
      else
        [vercel_bad_line;
         "   Check environment variables in Vercel dashboard";
         "   Check deployment logs in Vercel"]
  end.

(** The bundle the remote runner returns against [healthy]. *)
Definition healthy_remote_bundle : list (string * bundle_value) :=
  [("health", BProbe (probe_success (JDict [])));
   ("capabilities", BProbe (probe_success (JDict [])));
   ("main_api", BProbe (probe_success (JDict [])));
   ("duration", BFloat 12.5%float)].

(** An entry the summary loop can print: a probe result, or the duration. *)
Definition entry_ok (entry : string * bundle_value) : Prop :=
  fst entry = "duration" \/ exists p, snd entry = BProbe p.

(** What every probe returns against [offline], and the bundles of the runs. *)
Definition refused : ProbeResult := probe_error (Exn ConnectionError "Connection refused").

Definition offline_local_bundle : list (string * bundle_value) :=
  [("health", BProbe refused); ("capabilities", BProbe refused); ("main_api", BProbe refused)].

Definition offline_remote_bundle : list (string * bundle_value) :=
  [("health", BProbe refused); ("capabilities", BProbe refused);
   ("main_api", BProbe refused); ("duration", BFloat 0%float)].

(** ** Vocabulary for the validator *)

(** The required paths that do not exist in a file system. *)
Definition absent_paths (fs : gmap string string) : list string :=
  List.filter (fun p => negb (bool_decide (is_Some (fs !! p)))) (map fst required_files).

(** Decoded values on which [in] is defined: objects, arrays and strings. *)
Definition is_container (v : json) : bool :=
  match v with
  | JDict _ | JList _ | JStr _ => true
  | _ => false
  end.

(** The ways vercel.json can be: absent; not JSON (the decoder raises a
    JSONDecodeError); decoded to a value; or failing otherwise ([open], the
    read or the decoder raises another exception). *)
Inductive config_state : Type :=
| ConfigAbsent
| ConfigInvalid (msg : string)
| ConfigParsed (v : json)
| ConfigFault (e : exn).

Definition config_of (E : Env) (fs : gmap string string) : config_state :=
  match fs !! "vercel.json" with
  | None => ConfigAbsent
  | Some c =>
      match read_fault E fs "vercel.json" with
      | Some e => ConfigFault e
      | None =>
          match json_loads E c with
          | inl e =>
              if exn_class_eqb (exn_cls e) JSONDecodeError
              then ConfigInvalid (exn_str e) else ConfigFault e
          | inr v => ConfigParsed v
          end
      end
  end.




(** A JSON array holding the two section names as plain strings. *)
Definition names_array_text : string :=
  "[" ++ quoted "builds" ++ ", " ++ quoted "routes" ++ "]".

(** A computation that only writes to the console: it leaves the files and
    the request log alone and only appends to the console. *)
Definition console_only {A : Type} (m : M A) : Prop :=
  forall w, exists lines,
    snd (m w) = MkWorld (files w) (stdout w ++ lines) (sent w).

(** ** Further environments, for the examples *)

Definition no_tmp_dir : exn :=
  Exn FileNotFoundError "[Errno 2] No usable temporary directory found in ['/tmp', '/var/tmp']".

(** The temporary directory is unusable: no file can be created. *)
Definition no_tmp : Env :=
  MkEnv (fun _ _ => Fails (Exn ConnectionError "Connection refused"))
        sample_json_loads (fun _ => inl no_tmp_dir) no_fault (fun _ _ => None)
        no_fault no_fault sample_clock sample_py_str sample_chars sample_fmt_1f.

Definition no_space : exn := Exn OSError "[Errno 28] No space left on device".

(** The device is full: the temporary file is created, and the flush of its
    [close] fails with nothing written. *)
Definition full_disk : Env :=
  MkEnv (fun _ rq => Responds (MkResponse 200 "OK" (req_url rq) "{}"))
        sample_json_loads (fun _ => inr tmp_path) no_fault
        (fun _ _ => Some (no_space, EmptyString))
        no_fault no_fault sample_clock sample_py_str sample_chars sample_fmt_1f.

(** Every endpoint answers 200 with the JSON document null. *)
Definition null_server : Env :=
  make_env (fun _ rq => Responds (MkResponse 200 "OK" (req_url rq) "null")) no_fault.



(** The operator interrupts every request. *)
Definition interrupted : Env :=
  make_env (fun _ _ => Fails (Exn KeyboardInterrupt EmptyString)) no_fault.

(** ** Vocabulary for the runners *)

(** The outcome of the HTTP call of a request, given the requests issued
    before it. *)
Definition http_result (E : Env) (log : list Request) (rq : Request) : outcome json :=
  fst (http_call E rq (MkWorld ∅ [] log)).

Definition local_url : string := "http://localhost:8000".

(** The requests of one run of a runner, in order. *)
Definition runner_requests_of (base_url : string) : list Request :=
  [health_request base_url; capabilities_request base_url; main_request base_url].

(** ** The payload shapes the diagnostics of the runners read *)

Definition is_dict (v : json) : bool :=
  match v with
  | JDict _ => true
  | _ => false
  end.

Definition is_str (v : json) : bool :=
  match v with
  | JStr _ => true
  | _ => false
  end.

Definition is_str_list (v : json) : bool :=
  match v with
  | JList l => forallb is_str l
  | _ => false
  end.

(** An object whose field [k], when present, satisfies [ok]. *)
Definition field_ok (k : string) (ok : json -> bool) (v : json) : bool :=
  match v with
  | JDict d =>
      match dict_lookup k d with
      | Some x => ok x
      | None => true
      end
  | _ => false
  end.

(** /health: an object. *)
Definition health_shape : json -> bool := is_dict.

(** /api/workflow-capabilities: an object whose available_workflows, when
    given, is an array (or another sized value). *)
Definition capabilities_shape : json -> bool :=
  field_ok "available_workflows" is_container.

(** /api/, as the local runner reads it: an object whose result, when given,
    is empty or an object. *)
Definition main_shape_local : json -> bool :=
  field_ok "result" (fun r => negb (py_truthy r) || is_dict r).

(** /api/, as the remote runner reads it: an object whose processing_info,
    when given, is empty or an object whose enhanced_features, when given, is
    an array of strings. *)
Definition main_shape_remote : json -> bool :=
  field_ok "processing_info"
    (fun info => negb (py_truthy info) || field_ok "enhanced_features" is_str_list info).

(** The service answers a request within the contract: the HTTP call raises
    an [Exception], or gives a payload of the shape. *)
Definition answers_well (E : Env) (log : list Request) (rq : Request)
    (shape : json -> bool) : Prop :=
  match http_result E log rq with
  | Ret v => shape v = true
  | Raise e => is_Exception (exn_cls e) = true
  end.

(** ** Vocabulary for the entry point *)

(** A bundle as a runner returns it: its entries are probe results, and the
    duration, if there is one, is a float. *)
Definition bundle_wf (b : list (string * bundle_value)) : Prop :=
  Forall entry_ok b /\ forall p, dict_lookup "duration" b <> Some (BProbe p).

Definition results_wf (results : list (string * list (string * bundle_value))) : Prop :=
  Forall (fun eb => bundle_wf (snd eb)) results.

(** What [main] prints when no run is selected. *)
Definition idle_output : list string :=
  ["🧪 API Testing Suite for TDS Project2"; rule50;
   nl ++ rule50; "TEST SUMMARY"; rule50;
   nl ++ "📋 Next steps:";
   local_failed_line;
   "   Check dependencies: pip install -r requirements-vercel.txt";
   "   Check server: uvicorn api.index:app --reload"].

(** The requests [main] issues for a command line, run by run. *)
Definition requests_for (args : Args) : list Request :=
  ((if arg_local args || arg_both args then runner_requests_of local_url else []) ++
   (match vercel_given args with
    | Some u => runner_requests_of u
    | None => []
    end) ++
   (if arg_both args then runner_requests_of example_url else []))%list.

(** The keys of [results] for a command line, in order. *)
Definition keys_for (args : Args) : list string :=
  ((if arg_local args || arg_both args then ["local"] else []) ++
   (if arg_both args then ["vercel"]
    else match vercel_given args with
         | Some _ => ["vercel"]
         | None => []
         end))%list.

(** ** Vocabulary for the import check *)

(** The line the import check prints for a symbol, given the text of
    api/index.py. *)
Definition import_line (content imp : string) : string :=
  if is_substring imp content
  then "✅ api/index.py - Has " ++ imp ++ " import"
  else "❌ api/index.py - Missing " ++ imp ++ " import".

(** The line the file check prints for a required file. *)
Definition required_line (fs : gmap string string) (entry : string * string) : string :=
  if bool_decide (is_Some (fs !! fst entry))
  then "✅ " ++ fst entry ++ " - " ++ snd entry
  else "❌ " ++ fst entry ++ " - " ++ snd entry ++ " (MISSING)".

(** A project whose api/index.py names UploadFile and nothing else. *)
Definition upload_only_project : World :=
  MkWorld (<["api/index.py" := "from fastapi import UploadFile"]> ∅) [] [].

(** * Properties *)

(** ** The monad *)

Lemma bind_Ret_inv {A B : Type} (m : M A) (k : A -> M B) w b w' :
  bind m k w = (Ret b, w') ->
  exists a w1, m w = (Ret a, w1) /\ k a w1 = (Ret b, w').
Proof.
  unfold bind. destruct (m w) as [[a|e] w1]; intros H.
  - exists a, w1. split; [reflexivity | exact H].
  - discriminate H.
Qed.

Lemma bind_Ret_intro {A B : Type} (m : M A) (k : A -> M B) w a w1 :
  m w = (Ret a, w1) -> bind m k w = k a w1.
Proof. unfold bind. intros ->. reflexivity. Qed.

Lemma bind_Raise_intro {A B : Type} (m : M A) (k : A -> M B) w e w1 :
  m w = (Raise e, w1) -> bind m k w = (Raise e, w1).
Proof. unfold bind. intros ->. reflexivity. Qed.

Lemma bind_print {B : Type} s (k : unit -> M B) w :
  bind (print_line s) k w = k tt (MkWorld (files w) (stdout w ++ [s]) (sent w)).
Proof. reflexivity. Qed.

Lemma console_only_ret {A : Type} (a : A) : console_only (ret a).
Proof. intros [f o s]. exists []. cbn. rewrite app_nil_r. reflexivity. Qed.

Lemma console_only_raise {A : Type} (e : exn) : console_only (@raise A e).
Proof. intros [f o s]. exists []. cbn. rewrite app_nil_r. reflexivity. Qed.

Lemma console_only_lift {A : Type} (o : outcome A) : console_only (lift o).
Proof. intros [f c s]. exists []. cbn. rewrite app_nil_r. reflexivity. Qed.

Lemma console_only_print s : console_only (print_line s).
Proof. intros w. exists [s]. reflexivity. Qed.

Lemma console_only_bind {A B : Type} (m : M A) (k : A -> M B) :
  console_only m -> (forall a, console_only (k a)) -> console_only (bind m k).
Proof.
  intros Hm Hk w. unfold bind.
  destruct (Hm w) as [l1 H1]. destruct (m w) as [[a|e] w1]; cbn in H1; subst w1.
  - destruct (Hk a (MkWorld (files w) (stdout w ++ l1) (sent w))) as [l2 H2].
    exists (l1 ++ l2)%list. rewrite H2. cbn. rewrite app_assoc. reflexivity.
  - exists l1. reflexivity.
Qed.

Lemma console_only_if {A : Type} (c : bool) (m1 m2 : M A) :
  console_only m1 -> console_only m2 -> console_only (if c then m1 else m2).
Proof. destruct c; auto. Qed.

Lemma console_only_for_each {A : Type} (l : list A) (body : A -> M unit) :
  (forall x, console_only (body x)) -> console_only (for_each l body).
Proof.
  intros Hb. induction l as [|x l IH]; cbn [for_each].
  - apply console_only_ret.
  - apply console_only_bind; auto.
Qed.

Lemma console_only_probe_data r : console_only (probe_data r).
Proof.
  unfold probe_data. destruct (data r);
    [apply console_only_ret | apply console_only_raise].
Qed.

Lemma console_only_try_except {A : Type} catches (body : M A) handler :
  console_only body -> (forall e, console_only (handler e)) ->
  console_only (try_except catches body handler).
Proof.
  intros Hb Hh w. unfold try_except.
  destruct (Hb w) as [l1 H1]. destruct (body w) as [[a|e] w1]; cbn in H1; subst w1.
  - exists l1. reflexivity.
  - destruct (catches (exn_cls e)).
    + destruct (Hh e (MkWorld (files w) (stdout w ++ l1) (sent w))) as [l2 H2].
      exists (l1 ++ l2)%list. rewrite H2. cbn. rewrite app_assoc. reflexivity.
    + exists l1. reflexivity.
Qed.

Create HintDb console.
#[export] Hint Resolve console_only_ret console_only_raise console_only_lift
  console_only_print console_only_probe_data : console.

Ltac console :=
  repeat first
    [ apply console_only_ret | apply console_only_raise | apply console_only_lift
    | apply console_only_print | apply console_only_probe_data
    | apply console_only_bind; [| intros ?]
    | apply console_only_if
    | apply console_only_for_each; intros ?
    | match goal with |- console_only (match ?x with _ => _ end) => destruct x end ].

Lemma console_only_world {A : Type} (m : M A) w o w' :
  console_only m -> m w = (o, w') ->
  files w' = files w /\ sent w' = sent w /\ exists lines, stdout w' = (stdout w ++ lines)%list.
Proof.
  intros Hm Hrun. destruct (Hm w) as [lines H]. rewrite Hrun in H. cbn in H.
  subst w'. cbn. eauto.
Qed.

(** ** The probes *)

Lemma http_call_world E rq w :
  snd (http_call E rq w) = MkWorld (files w) (stdout w) (sent w ++ [rq]).
Proof.
  unfold http_call, bind, requests_send, raise_for_status, response_json, decode_json.
  destruct (server E (sent w) rq) as [r|e]; [|reflexivity].
  destruct ((400 <=? status_code r)%Z && (status_code r <? 500)%Z); [reflexivity|].
  destruct ((500 <=? status_code r)%Z && (status_code r <? 600)%Z); [reflexivity|].
  cbn. destruct (json_loads E (text r)); reflexivity.
Qed.

(** The outcome of the HTTP call depends on the requests issued so far and on
    nothing else in the world. *)
Lemma http_call_sent_only E rq w1 w2 :
  sent w1 = sent w2 -> fst (http_call E rq w1) = fst (http_call E rq w2).
Proof.
  intros Hs.
  unfold http_call, bind, requests_send, raise_for_status, response_json, decode_json.
  rewrite Hs.
  destruct (server E (sent w2) rq) as [r|e]; [|reflexivity].
  destruct ((400 <=? status_code r)%Z && (status_code r <? 500)%Z); [reflexivity|].
  destruct ((500 <=? status_code r)%Z && (status_code r <? 600)%Z); [reflexivity|].
  cbn. destruct (json_loads E (text r)); reflexivity.
Qed.

Lemma http_call_transport E rq w e :
  server E (sent w) rq = Fails e -> fst (http_call E rq w) = Raise e.
Proof. intros H. unfold http_call, bind, requests_send. rewrite H. reflexivity. Qed.

Lemma http_call_status E rq w r :
  server E (sent w) rq = Responds r ->
  (400 <= status_code r < 600)%Z ->
  exists msg, fst (http_call E rq w) = Raise (Exn HTTPError msg).
Proof.
  intros H Hc. unfold http_call, bind, requests_send, raise_for_status. rewrite H.
  destruct ((400 <=? status_code r)%Z && (status_code r <? 500)%Z) eqn:H4.
  - eexists. reflexivity.
  - destruct ((500 <=? status_code r)%Z && (status_code r <? 600)%Z) eqn:H5.
    + eexists. reflexivity.
    + exfalso. apply andb_false_iff in H4, H5. lia.
Qed.

Lemma raise_for_status_pass r w :
  ~ (400 <= status_code r < 600)%Z -> raise_for_status r w = (Ret tt, w).
Proof.
  intros Hc. unfold raise_for_status.
  destruct ((400 <=? status_code r)%Z && (status_code r <? 500)%Z) eqn:H4.
  - apply andb_true_iff in H4. lia.
  - destruct ((500 <=? status_code r)%Z && (status_code r <? 600)%Z) eqn:H5.
    + apply andb_true_iff in H5. lia.
    + reflexivity.
Qed.

Lemma http_call_decode E rq w r :
  server E (sent w) rq = Responds r ->
  ~ (400 <= status_code r < 600)%Z ->
  fst (http_call E rq w) =
    match json_loads E (text r) with
    | inr v => Ret v
    | inl e => Raise e
    end.
Proof.
  intros H Hc. unfold http_call, bind, requests_send. rewrite H.
  rewrite raise_for_status_pass by exact Hc.
  unfold response_json, decode_json. destruct (json_loads E (text r)); reflexivity.
Qed.

Ltac probe_cases :=
  repeat (cbn [fst snd exn_cls is_Exception files stdout sent];
          match goal with
          | |- context [server ?E ?l ?rq] => destruct (server E l rq) as [?r|?e]
          | |- context [((400 <=? ?c)%Z && (?c <? 500)%Z)] =>
              destruct ((400 <=? c)%Z && (c <? 500)%Z)
          | |- context [((500 <=? ?c)%Z && (?c <? 600)%Z)] =>
              destruct ((500 <=? c)%Z && (c <? 600)%Z)
          | |- context [json_loads ?E ?t] => destruct (json_loads E t)
          | |- context [is_Exception (exn_cls ?e)] => destruct (is_Exception (exn_cls e))
          | |- context [unlink_fault ?E ?f ?p] => destruct (unlink_fault E f p)
          end).

Ltac probe_unfold :=
  unfold bind, try_except, try_finally, print_line, requests_send, raise_for_status,
    response_json, decode_json, catch_Exception, catch_all, ret, raise, probe_outcome.

Lemma test_health_endpoint_spec E base_url w :
  exists lines,
    test_health_endpoint E base_url w =
      (probe_outcome (fst (http_call E (health_request base_url) w)),
       MkWorld (files w) (stdout w ++ lines) (sent w ++ [health_request base_url])).
Proof.
  unfold test_health_endpoint, requests_get, http_call, health_request.
  probe_unfold. probe_cases;
    cbn [fst snd exn_cls is_Exception files stdout sent];
    rewrite <- ?app_assoc; eexists; reflexivity.
Qed.

Lemma test_capabilities_endpoint_spec E base_url w :
  exists lines,
    test_capabilities_endpoint E base_url w =
      (probe_outcome (fst (http_call E (capabilities_request base_url) w)),
       MkWorld (files w) (stdout w ++ lines) (sent w ++ [capabilities_request base_url])).
Proof.
  unfold test_capabilities_endpoint, requests_get, http_call, capabilities_request.
  probe_unfold. probe_cases;
    cbn [fst snd exn_cls is_Exception files stdout sent];
    rewrite <- ?app_assoc; eexists; reflexivity.
Qed.

Lemma create_test_questions_file_ok E w p :
  tmp_created E (files w) p ->
  create_test_questions_file E w =
    (Ret p, MkWorld (<[p := questions_content]> (files w)) (stdout w) (sent w)).
Proof.
  intros (Hmk & Hfresh & Hwr & Hcl).
  unfold create_test_questions_file, named_temporary_file, file_write, file_close, bind, ret.
  cbn zeta. rewrite Hmk, Hfresh. cbn [files stdout sent]. rewrite Hwr.
  cbn [files stdout sent]. rewrite Hcl. rewrite insert_insert_eq. reflexivity.
Qed.

(** When the temporary file cannot be created the call raises; the file
    system is as it was, or holds one more file, of a name that was free
    ([NamedTemporaryFile] succeeded and the write or the close raised). *)
Lemma create_test_questions_file_fails E w :
  (forall p, ~ tmp_created E (files w) p) ->
  exists e fs',
    create_test_questions_file E w = (Raise e, MkWorld fs' (stdout w) (sent w)) /\
    (fs' = files w \/ exists p c, files w !! p = None /\ fs' = <[p := c]> (files w)).
Proof.
  intros Hno.
  unfold create_test_questions_file, named_temporary_file, file_write, file_close, bind, ret.
  cbn zeta.
  destruct (mkstemp E (files w)) as [e|p] eqn:Hmk.
  { exists e, (files w). destruct w; auto. }
  destruct (files w !! p) eqn:Hfresh.
  { eexists. exists (files w). destruct w; auto. }
  cbn [files stdout sent].
  destruct (write_fault E (<[p:=EmptyString]> (files w)) p) as [e|] eqn:Hwr.
  { exists e. eexists. split; [reflexivity|]. right. eauto. }
  cbn [files stdout sent].
  destruct (close_fault E (<[p:=questions_content]> (<[p:=EmptyString]> (files w))) p)
    as [[e flushed]|] eqn:Hcl.
  { exists e. eexists. split; [reflexivity|]. right. exists p, flushed.
    split; [exact Hfresh|]. rewrite !insert_insert_eq. reflexivity. }
  exfalso. apply (Hno p). repeat split; assumption.
Qed.

(** [NamedTemporaryFile] has created the file and the write or the close
    raises: the file is left behind. *)
Lemma create_test_questions_file_left E w p :
  mkstemp E (files w) = inr p -> files w !! p = None -> ~ tmp_created E (files w) p ->
  exists e c,
    create_test_questions_file E w =
      (Raise e, MkWorld (<[p := c]> (files w)) (stdout w) (sent w)) /\
    (write_fault E (<[p := EmptyString]> (files w)) p = Some e /\ c = EmptyString \/
     write_fault E (<[p := EmptyString]> (files w)) p = None /\
     close_fault E (<[p := questions_content]> (<[p := EmptyString]> (files w))) p
       = Some (e, c)).
Proof.
  intros Hmk Hfresh Hno.
  unfold create_test_questions_file, named_temporary_file, file_write, file_close, bind, ret.
  cbn zeta. rewrite Hmk, Hfresh. cbn [files stdout sent].
  destruct (write_fault E (<[p:=EmptyString]> (files w)) p) as [e|] eqn:Hwr.
  { exists e, EmptyString. split; [reflexivity | left; auto]. }
  cbn [files stdout sent].
  destruct (close_fault E (<[p:=questions_content]> (<[p:=EmptyString]> (files w))) p)
    as [[e flushed]|] eqn:Hcl.
  { exists e, flushed. split; [|right; auto].
    cbn [files stdout sent]. rewrite !insert_insert_eq. reflexivity. }
  exfalso. apply Hno. repeat split; assumption.
Qed.

(** The main probe once its temporary file exists: the outcome is that of the
    HTTP call; the file is gone afterwards unless [os.unlink] failed. *)
Lemma test_main_api_endpoint_spec E base_url w p :
  tmp_created E (files w) p ->
  exists lines,
    test_main_api_endpoint E base_url w =
      (probe_outcome (fst (http_call E (main_request base_url) w)),
       MkWorld
         (match unlink_fault E (<[p := questions_content]> (files w)) p with
          | Some _ => <[p := questions_content]> (files w)
          | None => files w
          end)
         (stdout w ++ lines) (sent w ++ [main_request base_url])).
Proof.
  intros Hp. pose proof Hp as (_ & Hfresh & _).
  unfold test_main_api_endpoint. rewrite bind_print. cbn beta.
  match goal with
  | |- context [bind (create_test_questions_file E) _ ?W] =>
      pose proof (create_test_questions_file_ok E W p Hp) as Hc
  end.
  rewrite (bind_Ret_intro _ _ _ _ _ Hc). cbn beta. cbn [files stdout sent]. clear Hc.
  unfold requests_post, http_call, main_request.
  unfold open_rb, os_unlink.
  probe_unfold. cbn [files stdout sent].
  rewrite lookup_insert_eq.
  probe_cases;
    cbn [fst snd exn_cls is_Exception files stdout sent];
    rewrite ?lookup_insert_eq, ?delete_insert_id by exact Hfresh;
    cbn [fst snd exn_cls is_Exception files stdout sent];
    rewrite <- ?app_assoc; eexists; reflexivity.
Qed.

(** Without a temporary file the main probe raises before any request; no
    file that existed is touched. *)
Lemma test_main_api_endpoint_no_tmp E base_url w :
  (forall p, ~ tmp_created E (files w) p) ->
  exists e fs',
    test_main_api_endpoint E base_url w =
      (Raise e, MkWorld fs' (stdout w ++ ["🔍 Testing main API endpoint..."]) (sent w)) /\
    (fs' = files w \/ exists p c, files w !! p = None /\ fs' = <[p := c]> (files w)).
Proof.
  intros Hno. unfold test_main_api_endpoint. rewrite bind_print. cbn beta.
  match goal with
  | |- context [bind (create_test_questions_file E) _ ?W] =>
      destruct (create_test_questions_file_fails E W Hno) as (e & fs' & Hc & Hfs)
  end.
  rewrite (bind_Raise_intro _ _ _ _ _ Hc). exists e, fs'. split; [reflexivity | exact Hfs].
Qed.

Lemma tmp_created_dec E fs :
  (exists p, tmp_created E fs p) \/ (forall p, ~ tmp_created E fs p).
Proof.
  unfold tmp_created. destruct (mkstemp E fs) as [e|p] eqn:Hmk.
  - right. intros q [Hq _]. discriminate.
  - destruct (fs !! p) eqn:Hp.
    + right. intros q (Hq & Hn & _). congruence.
    + destruct (write_fault E (<[p:=EmptyString]> fs) p) eqn:Hwr.
      * right. intros q (Hq & _ & Hw & _). injection Hq as <-. congruence.
      * destruct (close_fault E (<[p:=questions_content]> (<[p:=EmptyString]> fs)) p) eqn:Hcl.
        -- right. intros q (Hq & _ & _ & Hc). injection Hq as <-. congruence.
        -- left. exists p. auto.
Qed.

Lemma probe_outcome_ret o r :
  probe_outcome o = Ret r ->
  (exists v, o = Ret v /\ r = probe_success v) \/
  (exists e, o = Raise e /\ is_Exception (exn_cls e) = true /\ r = probe_error e).
Proof.
  destruct o as [v|e]; cbn.
  - intros [= <-]. left. eauto.
  - destruct (is_Exception (exn_cls e)) eqn:Hcls; [|discriminate].
    intros [= <-]. right. eauto.
Qed.

(** Every probe, in every world: either the HTTP call was issued and the
    outcome is what [except Exception] makes of it, or (main probe only) the
    temporary file could not be created and the probe raised. *)
Lemma run_probe_cases E pr base_url w :
  (probe_ready E pr w /\
   fst (run_probe E pr base_url w) =
     probe_outcome (fst (http_call E (probe_request pr base_url) w)) /\
   sent (snd (run_probe E pr base_url w)) = (sent w ++ [probe_request pr base_url])%list) \/
  (pr = MainApi /\ (forall p, ~ tmp_created E (files w) p) /\
   exists e, fst (run_probe E pr base_url w) = Raise e).
Proof.
  destruct pr; cbn [run_probe probe_request probe_ready].
  - left. destruct (test_health_endpoint_spec E base_url w) as [l ->]. auto.
  - left. destruct (test_capabilities_endpoint_spec E base_url w) as [l ->]. auto.
  - destruct (tmp_created_dec E (files w)) as [[p Hp]|Hno].
    + left. destruct (test_main_api_endpoint_spec E base_url w p Hp) as [l ->].
      split; [eauto | auto].
    + right. destruct (test_main_api_endpoint_no_tmp E base_url w Hno) as (e & fs' & -> & _).
      split; [reflexivity|]. split; [exact Hno|]. exists e. reflexivity.
Qed.

(** C1.  For each of the three probes and every base URL: when the HTTP call
    (send, raise_for_status, json) raises an exception [e] -- a transport
    error or timeout raised by the send, an HTTPError raised for a 4xx/5xx
    status, a decode error raised for a body that is not JSON -- the probe
    returns the dict with status "error" and error [str(e)] and raises
    nothing, and so for any other [Exception] the decoder raises; when the
    service answers 2xx with a JSON body, the probe returns status "success"
    with the decoded body as data. *)
Theorem probe_catches_and_reports (E : Env) (pr : probe) (base_url : string) (w : World) :
  probe_ready E pr w ->
  let rq := probe_request pr base_url in
  let result := fst (run_probe E pr base_url w) in
  (forall e, fst (http_call E rq w) = Raise e -> is_Exception (exn_cls e) = true ->
     result = Ret (MkProbe "error" None (Some (exn_str e)))) /\
  (forall e, server E (sent w) rq = Fails e -> is_Exception (exn_cls e) = true ->
     result = Ret (MkProbe "error" None (Some (exn_str e)))) /\
  (forall r, server E (sent w) rq = Responds r -> (400 <= status_code r < 600)%Z ->
     exists msg, fst (http_call E rq w) = Raise (Exn HTTPError msg) /\
                 result = Ret (MkProbe "error" None (Some msg))) /\
  (forall r e, server E (sent w) rq = Responds r -> ~ (400 <= status_code r < 600)%Z ->
     json_loads E (text r) = inl e -> is_Exception (exn_cls e) = true ->
     result = Ret (MkProbe "error" None (Some (exn_str e)))) /\
  (forall r msg, server E (sent w) rq = Responds r -> ~ (400 <= status_code r < 600)%Z ->
     json_loads E (text r) = inl (Exn JSONDecodeError msg) ->
     result = Ret (MkProbe "error" None (Some msg))) /\
  (forall r v, server E (sent w) rq = Responds r -> (200 <= status_code r < 300)%Z ->
     json_loads E (text r) = inr v ->
     result = Ret (MkProbe "success" (Some v) None)).
Proof.
  intros Hready rq result.
  assert (Hres : result = probe_outcome (fst (http_call E rq w))).
  { subst result rq. destruct (run_probe_cases E pr base_url w) as [(_ & H & _)|(-> & Hno & _)].
    - exact H.
    - destruct Hready as [p Hp]. destruct (Hno p Hp). }
  assert (Hgen : forall e, fst (http_call E rq w) = Raise e ->
                   is_Exception (exn_cls e) = true ->
                   result = Ret (MkProbe "error" None (Some (exn_str e)))).
  { intros e He Hcls. rewrite Hres, He. cbn. rewrite Hcls. reflexivity. }
  split; [exact Hgen|]. split; [|split; [|split; [|split]]].
  - intros e He Hcls. apply Hgen; [|exact Hcls]. apply http_call_transport. exact He.
  - intros r Hr Hc. destruct (http_call_status E rq w r Hr Hc) as [msg Hmsg].
    exists msg. split; [exact Hmsg|]. apply (Hgen _ Hmsg). reflexivity.
  - intros r e Hr Hc Hj Hcls. apply (Hgen e); [|exact Hcls].
    rewrite (http_call_decode E rq w r Hr Hc), Hj. reflexivity.
  - intros r msg Hr Hc Hj. apply (Hgen (Exn JSONDecodeError msg)); [|reflexivity].
    rewrite (http_call_decode E rq w r Hr Hc), Hj. reflexivity.
  - intros r v Hr Hc Hj. rewrite Hres.
    rewrite (http_call_decode E rq w r Hr) by lia. rewrite Hj. reflexivity.
Qed.

Lemma probe_catches_and_reports_witness :
  fst (run_probe offline MainApi "http://localhost:8000" empty_world) =
    Ret (MkProbe "error" None (Some "Connection refused")) /\
  fst (run_probe healthy Health "http://localhost:8000" empty_world) =
    Ret (MkProbe "success" (Some (JDict [])) None).
Proof.
  split.
  - refine (proj1 (proj2 (probe_catches_and_reports offline MainApi
                     "http://localhost:8000" empty_world _))
              (Exn ConnectionError "Connection refused") _ _).
    + exists tmp_path. repeat split.
    + reflexivity.
    + reflexivity.
  - refine (proj2 (proj2 (proj2 (proj2 (proj2 (probe_catches_and_reports healthy Health
                     "http://localhost:8000" empty_world I)))))
              (MkResponse 200 "OK" "http://localhost:8000/health" "{}") (JDict []) _ _ _).
    + reflexivity.
    + cbn. lia.
    + reflexivity.
Defined.

(** C6, as stated, fails: the data of a success result is whatever the body
    decodes to.  Where the service answers 200 with the JSON document null,
    the probe returns status "success" with data None and no error: neither
    data nor error is populated. *)
Lemma success_with_null_data :
  fst (run_probe null_server Health "http://localhost:8000" empty_world)
    = Ret (MkProbe "success" (Some JNull) None) /\
  data_populated (MkProbe "success" (Some JNull) None) = false /\
  error_populated (MkProbe "success" (Some JNull) None) = false.
Proof. repeat split; vm_compute; reflexivity. Qed.

(** C6, amended.  Whatever a probe returns is determined by its HTTP call.
    Where the call gives a decoded body, the result has status "success", the
    decoded body under data and no error key; its data is populated exactly
    when the body is not the JSON null.  Where the call raises an
    [Exception], the result has status "error", the string of that exception
    under error and no data key.  There is no other result. *)
Theorem probe_result_invariant (E : Env) (pr : probe) (base_url : string)
    (w w' : World) (r : ProbeResult) :
  run_probe E pr base_url w = (Ret r, w') ->
  let call := fst (http_call E (probe_request pr base_url) w) in
  (exists v, call = Ret v /\
     status r = "success" /\ data r = Some v /\ error r = None /\
     error_populated r = false /\ (data_populated r = true <-> v <> JNull)) \/
  (exists e, call = Raise e /\ is_Exception (exn_cls e) = true /\
     status r = "error" /\ data r = None /\ error r = Some (exn_str e) /\
     data_populated r = false /\ error_populated r = true).
Proof.
  intros Hrun call. subst call.
  destruct (run_probe_cases E pr base_url w) as [(_ & H & _)|(_ & _ & e & He)];
    rewrite Hrun in *; cbn [fst] in *; [|discriminate He].
  destruct (probe_outcome_ret _ _ (eq_sym H)) as [(v & -> & ->)|(e & -> & Hcls & ->)].
  - left. exists v. cbn. repeat (split; [reflexivity|]).
    destruct v; split; intros Hv; try reflexivity; try discriminate Hv;
      try (intros [=]); destruct (Hv eq_refl).
  - right. exists e. cbn. auto 10.
Qed.

Lemma probe_result_invariant_witness :
  let r := MkProbe "error" None (Some "Connection refused") in
  let call := fst (http_call offline (probe_request MainApi "http://localhost:8000")
                     empty_world) in
  (exists v, call = Ret v /\
     status r = "success" /\ data r = Some v /\ error r = None /\
     error_populated r = false /\ (data_populated r = true <-> v <> JNull)) \/
  (exists e, call = Raise e /\ is_Exception (exn_cls e) = true /\
     status r = "error" /\ data r = None /\ error r = Some (exn_str e) /\
     data_populated r = false /\ error_populated r = true).
Proof.
  intros r.
  apply (probe_result_invariant offline MainApi "http://localhost:8000" empty_world
           (snd (run_probe offline MainApi "http://localhost:8000" empty_world)) r).
  vm_compute. reflexivity.
Defined.

(** ** Cleanup of the workload file *)

(** C2, as stated, fails, in two ways.  Where [os.unlink] is refused the
    failure is swallowed, the probe result is returned, and the temporary
    file is still there.  Where the close of the workload file fails (the
    device is full), [create_test_questions_file] raises before the [try] of
    the probe is entered: the probe raises, no cleanup runs, no request is
    issued, and the file [NamedTemporaryFile] created is left behind. *)
Lemma cleanup_can_leave_the_file :
  (fst (test_main_api_endpoint locked_tmp "http://localhost:8000" empty_world) =
     Ret (MkProbe "success" (Some (JDict [])) None) /\
   files (snd (test_main_api_endpoint locked_tmp "http://localhost:8000" empty_world))
     !! tmp_path = Some questions_content) /\
  (fst (test_main_api_endpoint full_disk "http://localhost:8000" empty_world) =
     Raise no_space /\
   files (snd (test_main_api_endpoint full_disk "http://localhost:8000" empty_world))
     !! tmp_path = Some EmptyString /\
   sent (snd (test_main_api_endpoint full_disk "http://localhost:8000" empty_world)) = []).
Proof. repeat split; vm_compute; reflexivity. Qed.

(** C2, amended.  For every run of the main probe in which
    [create_test_questions_file] returns (the file was created, written and
    closed), on every exit path of the [try]: the outcome is that of the HTTP
    call alone (a probe result whenever that call succeeds or raises an
    Exception), so a failing deletion is swallowed and never raised; when
    [os.unlink] succeeds the temporary file no longer exists afterwards and
    the file system is as it was before the call; when [os.unlink] fails the
    file is left in place.  For every run in which [NamedTemporaryFile]
    created the file and the write or the close raised, the probe raises
    that exception, issues no request and leaves the file behind. *)
Theorem main_probe_cleanup (E : Env) (base_url : string) (w : World) :
  let run := test_main_api_endpoint E base_url w in
  (forall p, tmp_created E (files w) p ->
     let fs := <[p := questions_content]> (files w) in
     let call := fst (http_call E (main_request base_url) w) in
     fst run = probe_outcome call /\
     ((forall e, call = Raise e -> is_Exception (exn_cls e) = true) ->
      exists r, fst run = Ret r) /\
     (unlink_fault E fs p = None ->
      files (snd run) !! p = None /\ files (snd run) = files w) /\
     (is_Some (unlink_fault E fs p) -> files (snd run) = fs)) /\
  (forall p, mkstemp E (files w) = inr p -> files w !! p = None ->
     ~ tmp_created E (files w) p ->
     exists e c,
       (write_fault E (<[p := EmptyString]> (files w)) p = Some e /\ c = EmptyString \/
        write_fault E (<[p := EmptyString]> (files w)) p = None /\
        close_fault E (<[p := questions_content]> (<[p := EmptyString]> (files w))) p
          = Some (e, c)) /\
       fst run = Raise e /\
       files (snd run) = <[p := c]> (files w) /\
       files (snd run) !! p = Some c /\
       sent (snd run) = sent w).
Proof.
  intros run. split.
  - intros p Hp fs call.
    destruct (test_main_api_endpoint_spec E base_url w p Hp) as [lines Hrun].
    subst run. rewrite Hrun. cbn [fst snd files]. fold fs. fold call.
    split; [reflexivity|]. split; [|split].
    + intros Hexc. destruct call as [v|e] eqn:Hcall; cbn.
      * eexists. reflexivity.
      * rewrite (Hexc e eq_refl). eexists. reflexivity.
    + intros ->. split; [apply Hp | reflexivity].
    + intros [e ->]. reflexivity.
  - intros p Hmk Hfresh Hno. subst run.
    unfold test_main_api_endpoint. rewrite bind_print. cbn beta.
    match goal with
    | |- context [bind (create_test_questions_file E) _ ?W] =>
        destruct (create_test_questions_file_left E W p Hmk Hfresh Hno)
          as (e & c & Hc & Hwhy)
    end.
    rewrite (bind_Raise_intro _ _ _ _ _ Hc). cbn [fst snd files sent].
    exists e, c. split; [exact Hwhy|]. split; [reflexivity|].
    split; [reflexivity|]. split; [apply lookup_insert_eq | reflexivity].
Qed.

Lemma main_probe_cleanup_witness :
  (fst (test_main_api_endpoint failing_server "http://localhost:8000" empty_world) =
     probe_outcome
       (fst (http_call failing_server (main_request "http://localhost:8000") empty_world)) /\
   files (snd (test_main_api_endpoint failing_server "http://localhost:8000" empty_world))
     !! tmp_path = None) /\
  (exists e c,
     fst (test_main_api_endpoint full_disk "http://localhost:8000" empty_world) = Raise e /\
     files (snd (test_main_api_endpoint full_disk "http://localhost:8000" empty_world))
       !! tmp_path = Some c).
Proof.
  split.
  - assert (Hp : tmp_created failing_server (files empty_world) tmp_path)
      by (repeat split).
    pose proof (proj1 (main_probe_cleanup failing_server "http://localhost:8000" empty_world)
                  tmp_path Hp) as (Hout & _ & Hgone & _).
    split; [exact Hout|]. apply Hgone. reflexivity.
  - destruct (proj2 (main_probe_cleanup full_disk "http://localhost:8000" empty_world)
                tmp_path eq_refl eq_refl) as (e & c & _ & He & _ & Hc & _).
    + intros (_ & _ & _ & Hcl). discriminate Hcl.
    + exists e, c. split; assumption.
Defined.

(** ** The closing guidance of [main] *)

Lemma printed_by_app {A : Type} (m : M A) w lines :
  stdout (snd (m w)) = (stdout w ++ lines)%list -> printed_by m w = lines.
Proof. unfold printed_by. intros ->. apply drop_app_length. Qed.

Lemma next_steps_printed E results w :
  printed_by (next_steps E results) w =
    (nl ++ "📋 Next steps:") :: (local_lines results ++ vercel_lines E results)%list.
Proof.
  apply printed_by_app.
  unfold next_steps, local_lines, vercel_lines, local_ok, bind, print_line, ret, raise.
  destruct (match dict_lookup "local" results with
            | Some b => all_success b
            | None => false
            end);
    cbn [fst snd files stdout sent];
    (destruct (dict_lookup "vercel" results) as [b|];
     [destruct (all_success b);
      [destruct (dict_lookup "duration" b) as [[q|d]|];
       [| destruct (PrimFloat.ltb 10 d) | ] | ] | ]);
    cbn [fst snd files stdout sent app];
    rewrite <- ?app_assoc; reflexivity.
Qed.

Lemma all_success_iff b :
  all_success b = true <->
  forall p, In p (bundle_probes b) -> status p = "success".
Proof.
  unfold all_success. rewrite forallb_forall. unfold is_success.
  split; intros H p Hp; specialize (H p Hp).
  - apply String.eqb_eq. exact H.
  - apply String.eqb_eq. exact H.
Qed.

(** The probe results the verdict reads are the dict-valued entries of the
    bundle, whatever their keys. *)
Lemma in_bundle_probes b p :
  In p (bundle_probes b) <-> exists k, In (k, BProbe p) b.
Proof.
  unfold bundle_probes, dict_values. rewrite in_flat_map. split.
  - intros (v & Hv & Hp). apply in_map_iff in Hv. destruct Hv as ([k v'] & <- & Hin).
    cbn [snd] in Hp. destruct v' as [q|f]; [|destruct Hp].
    destruct Hp as [<-|[]]. exists k. exact Hin.
  - intros (k & Hin). exists (BProbe p). split; [|left; reflexivity].
    apply in_map_iff. exists (k, BProbe p). split; [reflexivity | exact Hin].
Qed.

Lemma all_success_entries b :
  all_success b = true <->
  forall k p, In (k, BProbe p) b -> status p = "success".
Proof.
  rewrite all_success_iff. split.
  - intros H k p Hin. apply H. apply in_bundle_probes. exists k. exact Hin.
  - intros H p Hp. apply in_bundle_probes in Hp. destruct Hp as [k Hin]. exact (H k p Hin).
Qed.

Lemma not_all_success_entries b :
  all_success b = false <->
  exists k p, In (k, BProbe p) b /\ status p <> "success".
Proof.
  split.
  - intros Hall. unfold all_success in Hall.
    assert (Hex : exists p, In p (bundle_probes b) /\ is_success p = false).
    { induction (bundle_probes b) as [|q l IH]; [discriminate Hall|].
      cbn [forallb] in Hall. destruct (is_success q) eqn:Hq.
      - destruct (IH Hall) as (p & Hp & Hn). exists p. split; [right; exact Hp | exact Hn].
      - exists q. split; [left; reflexivity | exact Hq]. }
    destruct Hex as (p & Hp & Hn). apply in_bundle_probes in Hp. destruct Hp as [k Hin].
    exists k, p. split; [exact Hin|]. intros Hs. unfold is_success in Hn.
    rewrite Hs in Hn. discriminate Hn.
  - intros (k & p & Hin & Hn). destruct (all_success b) eqn:Hall; [|reflexivity].
    destruct Hn. exact (proj1 (all_success_entries b) Hall k p Hin).
Qed.

Ltac distinct_lines :=
  repeat match goal with
         | H : _ \/ _ |- _ => destruct H
         | H : In _ [] |- _ => destruct H
         | H : In _ (_ :: _) |- _ => cbn [In] in H
         | H : @eq string _ _ |- _ => vm_compute in H; discriminate H
         | H : False |- _ => destruct H
         end.

Lemma passed_not_vercel E results : ~ In local_passed_line (vercel_lines E results).
Proof.
  unfold vercel_lines. intros H.
  destruct (dict_lookup "vercel" results) as [b|]; [|destruct H].
  destruct (all_success b).
  - destruct (dict_lookup "duration" b) as [[q|d]|];
      [| destruct (PrimFloat.ltb 10 d) |]; distinct_lines.
  - distinct_lines.
Qed.

Lemma failed_not_vercel E results : ~ In local_failed_line (vercel_lines E results).
Proof.
  unfold vercel_lines. intros H.
  destruct (dict_lookup "vercel" results) as [b|]; [|destruct H].
  destruct (all_success b).
  - destruct (dict_lookup "duration" b) as [[q|d]|];
      [| destruct (PrimFloat.ltb 10 d) |]; distinct_lines.
  - distinct_lines.
Qed.

Lemma passed_in_next_steps E results w :
  In local_passed_line (printed_by (next_steps E results) w) <-> local_ok results = true.
Proof.
  rewrite next_steps_printed. cbn [In]. rewrite in_app_iff.
  unfold local_lines. destruct (local_ok results); split; intros H.
  - reflexivity.
  - right. left. left. reflexivity.
  - destruct H as [H|[H|H]]; [distinct_lines | distinct_lines |].
    destruct (passed_not_vercel E results H).
  - discriminate H.
Qed.

Lemma failed_in_next_steps E results w :
  In local_failed_line (printed_by (next_steps E results) w) <-> local_ok results = false.
Proof.
  rewrite next_steps_printed. cbn [In]. rewrite in_app_iff.
  unfold local_lines. destruct (local_ok results); split; intros H.
  - destruct H as [H|[H|H]]; [distinct_lines | distinct_lines |].
    destruct (failed_not_vercel E results H).
  - discriminate H.
  - reflexivity.
  - right. left. left. reflexivity.
Qed.

(** C3.  The local verdict of the summary is a strict AND over the probe
    statuses: the success guidance is printed exactly when a local bundle
    exists and every probe result that is an entry of it has status
    "success"; otherwise, and in particular when some entry of the local
    bundle is a probe result with status "error", the failure guidance is
    printed instead. *)
Theorem local_guidance_is_strict_and (E : Env)
    (results : list (string * list (string * bundle_value))) (w : World) :
  let out := printed_by (next_steps E results) w in
  (In local_passed_line out <->
   exists b, dict_lookup "local" results = Some b /\
             forall k p, In (k, BProbe p) b -> status p = "success") /\
  (In local_failed_line out <-> ~ In local_passed_line out) /\
  (forall b k p, dict_lookup "local" results = Some b ->
     In (k, BProbe p) b -> status p = "error" ->
     In local_failed_line out /\ ~ In local_passed_line out).
Proof.
  intros out. subst out.
  assert (Hok : local_ok results = true <->
                exists b, dict_lookup "local" results = Some b /\
                          forall k p, In (k, BProbe p) b -> status p = "success").
  { unfold local_ok. destruct (dict_lookup "local" results) as [b|].
    - rewrite all_success_entries. split.
      + intros H. exists b. split; [reflexivity | exact H].
      + intros (b' & [= <-] & H). exact H.
    - split; [discriminate | intros (b' & [=] & _)]. }
  split; [|split].
  - rewrite passed_in_next_steps. exact Hok.
  - rewrite passed_in_next_steps, failed_in_next_steps.
    destruct (local_ok results); split; intros H; congruence.
  - intros b k p Hb Hp Herr.
    assert (Hno : local_ok results = false).
    { destruct (local_ok results) eqn:Hl; [|reflexivity].
      destruct (proj1 Hok eq_refl) as (b' & Hb' & Hall).
      rewrite Hb in Hb'. injection Hb' as <-.
      specialize (Hall k p Hp). rewrite Herr in Hall. discriminate Hall. }
    rewrite passed_in_next_steps, failed_in_next_steps, Hno.
    split; [reflexivity | discriminate].
Qed.

(** ** The environment runners *)

(** One step of a run that returned: a console-only statement. *)
Ltac step_console H w1 Hf Hs :=
  let Hm := fresh "Hm" in
  let a := fresh "a" in
  apply bind_Ret_inv in H; destruct H as (a & w1 & Hm & H); cbn beta in H;
  apply console_only_world in Hm; [destruct Hm as (Hf & Hs & _) | console].

(** One step of a run that returned: a probe, with its result. *)
Ltac step_probe H r w1 Hm :=
  apply bind_Ret_inv in H; destruct H as (r & w1 & Hm & H); cbn beta in H.

Lemma probe_run_sent E pr base_url w r w' :
  run_probe E pr base_url w = (Ret r, w') ->
  Ret r = probe_outcome (fst (http_call E (probe_request pr base_url) w)) /\
  sent w' = (sent w ++ [probe_request pr base_url])%list.
Proof.
  intros Hrun.
  destruct (run_probe_cases E pr base_url w) as [(_ & Ho & Hs)|(_ & _ & e & He)];
    rewrite Hrun in *; cbn [fst snd] in *.
  - split; assumption.
  - discriminate He.
Qed.

(** A run of the remote runner that returns a bundle went through the three
    probes in order; the two clock readings are taken in the world the main
    probe starts in and in the world it returns in. *)
Lemma test_vercel_deployment_inv E vercel_url w b w' :
  test_vercel_deployment E vercel_url w = (Ret b, w') ->
  exists wh wh' wc wc' w0 w1 h c api,
    test_health_endpoint E vercel_url wh = (Ret h, wh') /\ sent wh = sent w /\
    files wh = files w /\
    test_capabilities_endpoint E vercel_url wc = (Ret c, wc') /\ sent wc = sent wh' /\
    test_main_api_endpoint E vercel_url w0 = (Ret api, w1) /\ sent w0 = sent wc' /\
    sent w' = sent w1 /\ files w' = files w1 /\
    b = [("health", BProbe h); ("capabilities", BProbe c); ("main_api", BProbe api);
         ("duration", BFloat (PrimFloat.sub (time_time E w1) (time_time E w0)))].
Proof.
  unfold test_vercel_deployment. intros H.
  step_console H w1 Hf1 Hs1. step_console H w2 Hf2 Hs2.
  step_console H w3 Hf3 Hs3. step_console H w4 Hf4 Hs4.
  step_probe H h w5 Hh.
  step_console H w6 Hf6 Hs6. step_console H w7 Hf7 Hs7.
  step_probe H c w8 Hc.
  step_console H w9 Hf9 Hs9. step_console H w10 Hf10 Hs10.
  step_console H w11 Hf11 Hs11.
  apply bind_Ret_inv in H. destruct H as (t0 & w12 & Ht0 & H). cbn beta in H.
  injection Ht0 as <- <-.
  step_probe H api w13 Ha.
  apply bind_Ret_inv in H. destruct H as (t1 & w14 & Ht1 & H). cbn beta in H.
  injection Ht1 as <- <-.
  cbn zeta in H.
  step_console H w15 Hf15 Hs15. step_console H w16 Hf16 Hs16.
  injection H as <- <-.
  exists w4, w5, w7, w8, w11, w13, h, c, api.
  repeat split; try assumption; congruence.
Qed.

(** The same for the local runner, which targets http://localhost:8000. *)
Lemma test_local_server_inv E w b w' :
  test_local_server E w = (Ret b, w') ->
  exists wh wh' wc wc' w0 w1 h c api,
    test_health_endpoint E "http://localhost:8000" wh = (Ret h, wh') /\ sent wh = sent w /\
    files wh = files w /\
    test_capabilities_endpoint E "http://localhost:8000" wc = (Ret c, wc') /\
    sent wc = sent wh' /\
    test_main_api_endpoint E "http://localhost:8000" w0 = (Ret api, w1) /\
    sent w0 = sent wc' /\
    sent w' = sent w1 /\ files w' = files w1 /\
    b = [("health", BProbe h); ("capabilities", BProbe c); ("main_api", BProbe api)].
Proof.
  unfold test_local_server. cbn zeta. intros H.
  step_console H w1 Hf1 Hs1. step_console H w2 Hf2 Hs2.
  step_console H w3 Hf3 Hs3. step_console H w4 Hf4 Hs4.
  step_probe H h w5 Hh.
  step_console H w6 Hf6 Hs6. step_console H w7 Hf7 Hs7.
  step_probe H c w8 Hc.
  step_console H w9 Hf9 Hs9. step_console H w10 Hf10 Hs10.
  step_probe H api w11 Ha.
  step_console H w12 Hf12 Hs12. step_console H w13 Hf13 Hs13.
  injection H as <- <-.
  exists w4, w5, w7, w8, w10, w11, h, c, api.
  repeat split; try assumption; congruence.
Qed.

(** The requests of a run that returned, for either runner. *)
Lemma runner_requests E base_url w wh wh' wc wc' w0 w1 h c api :
  test_health_endpoint E base_url wh = (Ret h, wh') -> sent wh = sent w ->
  test_capabilities_endpoint E base_url wc = (Ret c, wc') -> sent wc = sent wh' ->
  test_main_api_endpoint E base_url w0 = (Ret api, w1) -> sent w0 = sent wc' ->
  sent w0 = (sent w ++ [health_request base_url; capabilities_request base_url])%list /\
  sent w1 = (sent w ++ [health_request base_url; capabilities_request base_url;
                        main_request base_url])%list.
Proof.
  intros Hh Hsh Hc Hsc Ha Hsa.
  destruct (probe_run_sent E Health base_url wh h wh' Hh) as [_ H1].
  destruct (probe_run_sent E Capabilities base_url wc c wc' Hc) as [_ H2].
  destruct (probe_run_sent E MainApi base_url w0 api w1 Ha) as [_ H3].
  cbn [probe_request] in *.
  assert (H0 : sent w0 =
               (sent w ++ [health_request base_url; capabilities_request base_url])%list).
  { rewrite Hsa, H2, Hsc, H1, Hsh, <- app_assoc. reflexivity. }
  split; [exact H0|]. rewrite H3, H0, <- app_assoc. reflexivity.
Qed.

Lemma cold_start_in_next_steps E results w b d :
  dict_lookup "vercel" results = Some b ->
  dict_lookup "duration" b = Some (BFloat d) ->
  In (cold_start_line E d) (printed_by (next_steps E results) w) <->
  all_success b = true /\ PrimFloat.ltb 10 d = true.
Proof.
  intros Hv Hd. rewrite next_steps_printed. cbn [In]. rewrite in_app_iff.
  unfold local_lines, vercel_lines. rewrite Hv, Hd.
  split.
  - intros [H|[H|H]].
    + distinct_lines.
    + destruct (local_ok results); distinct_lines.
    + destruct (all_success b); [|distinct_lines].
      destruct (PrimFloat.ltb 10 d); [split; reflexivity | distinct_lines].
  - intros [-> ->]. right. right. right. left. reflexivity.
Qed.

(** C7.  A run of the remote runner that returns a bundle read the clock in
    the world in which the main probe starts -- after the health and the
    capabilities requests have been answered -- and in the world in which it
    returns, and its bundle carries the difference as "duration"; and when
    that bundle is the remote bundle of the summary, the cold-start
    annotation is printed exactly when every probe result that is an entry
    of the bundle -- the results of the health, the capabilities and the main
    probe -- has status "success" and the duration is strictly above 10. *)
Theorem duration_wraps_main_probe_only (E : Env) (vercel_url : string) (w w' : World)
    (b : list (string * bundle_value))
    (results : list (string * list (string * bundle_value))) (ws : World) :
  test_vercel_deployment E vercel_url w = (Ret b, w') ->
  dict_lookup "vercel" results = Some b ->
  exists w0 w1 h c api duration,
    test_main_api_endpoint E vercel_url w0 = (Ret api, w1) /\
    sent w0 = (sent w ++ [health_request vercel_url; capabilities_request vercel_url])%list /\
    sent w1 = (sent w0 ++ [main_request vercel_url])%list /\
    sent w' = sent w1 /\
    duration = PrimFloat.sub (time_time E w1) (time_time E w0) /\
    b = [("health", BProbe h); ("capabilities", BProbe c); ("main_api", BProbe api);
         ("duration", BFloat duration)] /\
    dict_lookup "main_api" b = Some (BProbe api) /\
    dict_lookup "duration" b = Some (BFloat duration) /\
    (In (cold_start_line E duration) (printed_by (next_steps E results) ws) <->
     (forall k p, In (k, BProbe p) b -> status p = "success") /\
     PrimFloat.ltb 10 duration = true) /\
    (In (cold_start_line E duration) (printed_by (next_steps E results) ws) <->
     (status h = "success" /\ status c = "success" /\ status api = "success") /\
     PrimFloat.ltb 10 duration = true).
Proof.
  intros Hrun Hres.
  destruct (test_vercel_deployment_inv E vercel_url w b w' Hrun)
    as (wh & wh' & wc & wc' & w0 & w1 & h & c & api &
        Hh & Hsh & _ & Hc & Hsc & Ha & Hsa & Hs' & _ & ->).
  destruct (runner_requests E vercel_url w wh wh' wc wc' w0 w1 h c api
              Hh Hsh Hc Hsc Ha Hsa) as [H0 H1].
  exists w0, w1, h, c, api, (PrimFloat.sub (time_time E w1) (time_time E w0)).
  split; [exact Ha|]. split; [exact H0|].
  split; [rewrite H1, H0, <- app_assoc; reflexivity|].
  split; [exact Hs'|]. split; [reflexivity|]. split; [reflexivity|].
  split; [reflexivity|]. split; [reflexivity|].
  assert (Hcold : In (cold_start_line E (PrimFloat.sub (time_time E w1) (time_time E w0)))
                     (printed_by (next_steps E results) ws) <->
                  (forall k p,
                     In (k, BProbe p)
                        [("health", BProbe h); ("capabilities", BProbe c);
                         ("main_api", BProbe api);
                         ("duration",
                          BFloat (PrimFloat.sub (time_time E w1) (time_time E w0)))] ->
                     status p = "success") /\
                  PrimFloat.ltb 10 (PrimFloat.sub (time_time E w1) (time_time E w0)) = true).
  { rewrite <- all_success_entries.
    apply (cold_start_in_next_steps E results ws); [exact Hres | reflexivity]. }
  split; [exact Hcold|]. rewrite Hcold. clear Hcold.
  split; intros [Hall Hd]; (split; [|exact Hd]).
  - split; [|split].
    + apply (Hall "health"). left. reflexivity.
    + apply (Hall "capabilities"). right. left. reflexivity.
    + apply (Hall "main_api"). right. right. left. reflexivity.
  - destruct Hall as (Sh & Sc & Sa). intros k p Hin. cbn [In] in Hin.
    destruct Hin as [[= _ <-]|[[= _ <-]|[[= _ <-]|[[=]|[]]]]]; assumption.
Qed.


Lemma duration_wraps_main_probe_only_witness :
  exists w0 w1 h c api duration,
    test_main_api_endpoint healthy "https://app.vercel.app" w0 = (Ret api, w1) /\
    sent w0 = (sent empty_world ++ [health_request "https://app.vercel.app";
                                    capabilities_request "https://app.vercel.app"])%list /\
    sent w1 = (sent w0 ++ [main_request "https://app.vercel.app"])%list /\
    sent (snd (test_vercel_deployment healthy "https://app.vercel.app" empty_world))
      = sent w1 /\
    duration = PrimFloat.sub (time_time healthy w1) (time_time healthy w0) /\
    healthy_remote_bundle
      = [("health", BProbe h); ("capabilities", BProbe c); ("main_api", BProbe api);
         ("duration", BFloat duration)] /\
    dict_lookup "main_api" healthy_remote_bundle = Some (BProbe api) /\
    dict_lookup "duration" healthy_remote_bundle = Some (BFloat duration) /\
    (In (cold_start_line healthy duration)
        (printed_by (next_steps healthy [("vercel", healthy_remote_bundle)]) empty_world) <->
     (forall k p, In (k, BProbe p) healthy_remote_bundle -> status p = "success") /\
     PrimFloat.ltb 10 duration = true) /\
    (In (cold_start_line healthy duration)
        (printed_by (next_steps healthy [("vercel", healthy_remote_bundle)]) empty_world) <->
     (status h = "success" /\ status c = "success" /\ status api = "success") /\
     PrimFloat.ltb 10 duration = true).
Proof.
  apply (duration_wraps_main_probe_only healthy "https://app.vercel.app" empty_world
           (snd (test_vercel_deployment healthy "https://app.vercel.app" empty_world))
           healthy_remote_bundle [("vercel", healthy_remote_bundle)] empty_world).
  - vm_compute. reflexivity.
  - reflexivity.
Defined.

(** ** The entry point *)

Lemma console_only_summary_entry entry : console_only (summary_entry entry).
Proof.
  destruct entry as [k [p|f]]; unfold summary_entry; console.
Qed.

Lemma console_only_print_summary results : console_only (print_summary results).
Proof.
  unfold print_summary, summary_entry. console.
Qed.

Lemma summary_entry_returns entry w :
  entry_ok entry -> fst (summary_entry entry w) = Ret tt.
Proof.
  destruct entry as [k v]. unfold entry_ok, summary_entry. cbn [fst snd].
  intros [-> | [p ->]].
  - reflexivity.
  - destruct (String.eqb k "duration"); [reflexivity|].
    unfold bind, print_line. destruct (String.eqb (status p) "error"); reflexivity.
Qed.

Lemma for_each_summary_returns b w :
  Forall entry_ok b -> fst (for_each b summary_entry w) = Ret tt.
Proof.
  intros Hb. revert w. induction Hb as [|entry b Hentry _ IH]; intros w.
  - reflexivity.
  - cbn [for_each]. unfold bind.
    pose proof (summary_entry_returns entry w Hentry) as H.
    destruct (summary_entry entry w) as [[[]|e] w1]; cbn in H; [apply IH | discriminate H].
Qed.

Lemma for_each_env_returns (results : list (string * list (string * bundle_value))) w :
  Forall (fun eb => Forall entry_ok (snd eb)) results ->
  fst (for_each results
         (fun '(env, env_results) =>
            print_line (nl ++ upper env ++ " Environment:") ;;
            for_each env_results summary_entry) w) = Ret tt.
Proof.
  intros Hres. revert w.
  induction Hres as [|[env b] results Hb _ IH]; intros w.
  - reflexivity.
  - cbn [for_each]. cbn [snd] in Hb.
    unfold bind at 1. cbn beta iota. unfold bind at 1, print_line at 1. cbn beta iota.
    match goal with
    | |- context [for_each b summary_entry ?w0] =>
        pose proof (for_each_summary_returns b w0 Hb) as H;
        destruct (for_each b summary_entry w0) as [[[]|e] w1]
    end; cbn in H; [apply IH | discriminate H].
Qed.

Lemma print_summary_returns results w :
  Forall (fun eb => Forall entry_ok (snd eb)) results ->
  exists lines,
    print_summary results w = (Ret tt, MkWorld (files w) (stdout w ++ lines) (sent w)).
Proof.
  intros Hres.
  destruct (console_only_print_summary results w) as [lines Hw].
  exists lines. rewrite <- Hw.
  assert (Hfst : fst (print_summary results w) = Ret tt).
  { unfold print_summary.
    do 3 (erewrite bind_Ret_intro by reflexivity).
    apply for_each_env_returns. exact Hres. }
  destruct (print_summary results w) as [o w2]. cbn in Hfst. subst o. reflexivity.
Qed.

Lemma runner_bundle_ok h c api :
  Forall entry_ok [("health", BProbe h); ("capabilities", BProbe c); ("main_api", BProbe api)].
Proof.
  do 3 (constructor; [right; eexists; reflexivity|]). constructor.
Qed.

Lemma remote_bundle_ok h c api d :
  Forall entry_ok [("health", BProbe h); ("capabilities", BProbe c);
                   ("main_api", BProbe api); ("duration", BFloat d)].
Proof.
  do 3 (constructor; [right; eexists; reflexivity|]).
  constructor; [left; reflexivity | constructor].
Qed.

(** The bundle of a remote run, its shape and the requests of the run. *)
Lemma test_vercel_deployment_shape E vercel_url w b w' :
  test_vercel_deployment E vercel_url w = (Ret b, w') ->
  (exists h c api d,
     b = [("health", BProbe h); ("capabilities", BProbe c);
          ("main_api", BProbe api); ("duration", BFloat d)]) /\
  sent w' = (sent w ++ [health_request vercel_url; capabilities_request vercel_url;
                        main_request vercel_url])%list.
Proof.
  intros Hrun.
  destruct (test_vercel_deployment_inv E vercel_url w b w' Hrun)
    as (wh & wh' & wc & wc' & w0 & w1 & h & c & api &
        Hh & Hsh & _ & Hc & Hsc & Ha & Hsa & Hs' & _ & ->).
  destruct (runner_requests E vercel_url w wh wh' wc wc' w0 w1 h c api
              Hh Hsh Hc Hsc Ha Hsa) as [_ H1].
  split; [eauto 6 | congruence].
Qed.

Lemma test_local_server_shape E w b w' :
  test_local_server E w = (Ret b, w') ->
  (exists h c api,
     b = [("health", BProbe h); ("capabilities", BProbe c); ("main_api", BProbe api)]) /\
  sent w' = (sent w ++ [health_request "http://localhost:8000";
                        capabilities_request "http://localhost:8000";
                        main_request "http://localhost:8000"])%list.
Proof.
  intros Hrun.
  destruct (test_local_server_inv E w b w' Hrun)
    as (wh & wh' & wc & wc' & w0 & w1 & h & c & api &
        Hh & Hsh & _ & Hc & Hsc & Ha & Hsa & Hs' & _ & ->).
  destruct (runner_requests E "http://localhost:8000" w wh wh' wc wc' w0 w1 h c api
              Hh Hsh Hc Hsc Ha Hsa) as [_ H1].
  split; [eauto 6 | congruence].
Qed.

(** With --vercel alone, [results] is empty (empty URL) or holds the one
    remote bundle. *)
Lemma collect_results_vercel_only E u w results w' :
  collect_results E (MkArgs false (Some u) false) w = (Ret results, w') ->
  (u = EmptyString /\ results = [] /\ sent w' = sent w) \/
  (u <> EmptyString /\
   exists b w0, test_vercel_deployment E u w0 = (Ret b, w') /\ sent w0 = sent w /\
                results = [("vercel", b)]).
Proof.
  unfold collect_results, vercel_given. cbn [arg_local arg_vercel arg_both orb].
  intros H.
  step_console H w1 Hf1 Hs1. step_console H w2 Hf2 Hs2.
  apply bind_Ret_inv in H. destruct H as (r0 & w3 & H0 & H). cbn beta in H.
  injection H0 as <- <-.
  destruct (String.eqb_spec u EmptyString) as [->|Hne].
  - left. cbv [bind ret] in H. injection H as <- <-.
    split; [reflexivity|]. split; [reflexivity | congruence].
  - right. split; [exact Hne|].
    apply bind_Ret_inv in H. destruct H as (r1 & w4 & H1 & H). cbn beta in H.
    step_console H1 w5 Hf5 Hs5.
    apply bind_Ret_inv in H1. destruct H1 as (b & w6 & Hb & H1). cbn beta in H1.
    injection H1 as <- <-.
    cbv [bind ret] in H. injection H as <- <-.
    exists b, w5. split; [exact Hb|]. split; [congruence | reflexivity].
Qed.

Lemma next_steps_returns E results w :
  (forall b p, dict_lookup "vercel" results = Some b ->
               dict_lookup "duration" b <> Some (BProbe p)) ->
  fst (next_steps E results w) = Ret tt.
Proof.
  intros Hshape. unfold next_steps, bind, print_line, ret, raise.
  destruct (match dict_lookup "local" results with
            | Some b => all_success b
            | None => false
            end);
    cbn [fst snd files stdout sent];
    (destruct (dict_lookup "vercel" results) as [b|]; [|reflexivity];
     specialize (Hshape b);
     destruct (all_success b); [|reflexivity];
     cbn [fst snd files stdout sent];
     destruct (dict_lookup "duration" b) as [[p|d]|];
     [ destruct (Hshape p eq_refl eq_refl)
     | destruct (PrimFloat.ltb 10 d); reflexivity
     | reflexivity ]).
Qed.

(** C9.  With --vercel URL and neither --local nor --both, a run that
    reaches the summary has no local bundle in its results, issued requests
    to the given URL only, and its closing guidance prints the local-failure
    line and not the local-success line: the failure line is printed whenever
    the condition ['local' in results and all(...)] is false, the absence of
    the key included. *)
Theorem vercel_only_prints_local_failure (E : Env) (u : string) (w w1 : World)
    (results : list (string * list (string * bundle_value))) :
  collect_results E (MkArgs false (Some u) false) w = (Ret results, w1) ->
  dict_lookup "local" results = None /\
  (sent w1 = sent w \/
   sent w1 = (sent w ++ [health_request u; capabilities_request u; main_request u])%list) /\
  exists w2,
    print_summary results w1 = (Ret tt, w2) /\
    main E (MkArgs false (Some u) false) w = next_steps E results w2 /\
    fst (main E (MkArgs false (Some u) false) w) = Ret tt /\
    In local_failed_line (printed_by (next_steps E results) w2) /\
    ~ In local_passed_line (printed_by (next_steps E results) w2) /\
    (forall results' ws,
       In local_failed_line (printed_by (next_steps E results') ws) <->
       local_ok results' = false).
Proof.
  intros Hrun.
  assert (Hshape : dict_lookup "local" results = None /\
            (sent w1 = sent w \/
             sent w1 = (sent w ++ [health_request u; capabilities_request u;
                                   main_request u])%list) /\
            Forall (fun eb => Forall entry_ok (snd eb)) results /\
            (forall b p, dict_lookup "vercel" results = Some b ->
                         dict_lookup "duration" b <> Some (BProbe p))).
  { destruct (collect_results_vercel_only E u w results w1 Hrun)
      as [(_ & -> & Hs)|(_ & b & w0 & Hb & Hs0 & ->)].
    - split; [reflexivity|]. split; [left; exact Hs|]. split; [constructor|].
      intros b p [=].
    - destruct (test_vercel_deployment_shape E u w0 b w1 Hb)
        as [(h & c & api & d & ->) Hs].
      split; [reflexivity|]. split; [right; congruence|]. split.
      + constructor; [apply remote_bundle_ok | constructor].
      + intros b p [= <-]. discriminate. }
  destruct Hshape as (Hloc & Hsent & Hok & Hdur).
  split; [exact Hloc|]. split; [exact Hsent|].
  destruct (print_summary_returns results w1 Hok) as [lines Hsum].
  eexists. split; [exact Hsum|].
  assert (Hmain : main E (MkArgs false (Some u) false) w =
                  next_steps E results
                    (MkWorld (files w1) (stdout w1 ++ lines) (sent w1))).
  { unfold main. rewrite (bind_Ret_intro _ _ _ _ _ Hrun).
    rewrite (bind_Ret_intro _ _ _ _ _ Hsum). reflexivity. }
  split; [exact Hmain|]. split; [rewrite Hmain; apply next_steps_returns; exact Hdur|].
  assert (Hno : local_ok results = false) by (unfold local_ok; rewrite Hloc; reflexivity).
  rewrite passed_in_next_steps, failed_in_next_steps, Hno.
  split; [reflexivity|]. split; [discriminate|].
  intros results' ws. apply failed_in_next_steps.
Qed.

Lemma vercel_only_prints_local_failure_witness :
  let args := MkArgs false (Some "https://app.vercel.app") false in
  let results := [("vercel", healthy_remote_bundle)] in
  let w1 := snd (collect_results healthy args empty_world) in
  dict_lookup "local" results = None /\
  (sent w1 = sent empty_world \/
   sent w1 = (sent empty_world ++
              [health_request "https://app.vercel.app";
               capabilities_request "https://app.vercel.app";
               main_request "https://app.vercel.app"])%list) /\
  exists w2,
    print_summary results w1 = (Ret tt, w2) /\
    main healthy args empty_world = next_steps healthy results w2 /\
    fst (main healthy args empty_world) = Ret tt /\
    In local_failed_line (printed_by (next_steps healthy results) w2) /\
    ~ In local_passed_line (printed_by (next_steps healthy results) w2) /\
    (forall results' ws,
       In local_failed_line (printed_by (next_steps healthy results') ws) <->
       local_ok results' = false).
Proof.
  intros args results w1.
  apply (vercel_only_prints_local_failure healthy "https://app.vercel.app" empty_world
           w1 results).
  vm_compute. reflexivity.
Defined.

(** C10.  With --vercel URL and --both, a run that reaches the summary ran
    the remote runner a second time, against the placeholder URL, and stored
    its bundle under the key the bundle of the given URL was stored under:
    [results] ends with the local bundle and the placeholder bundle only, and
    the remote part of the closing guidance is computed from the placeholder
    bundle. *)
Theorem both_overwrites_given_url (E : Env) (l : bool) (u : string) (w w' : World)
    (results : list (string * list (string * bundle_value))) :
  collect_results E (MkArgs l (Some u) true) w = (Ret results, w') ->
  exists bl b wc,
    test_vercel_deployment E example_url wc = (Ret b, w') /\
    results = [("local", bl); ("vercel", b)] /\
    dict_lookup "vercel" results = Some b /\
    vercel_lines E results = vercel_lines E [("vercel", b)] /\
    (u <> EmptyString ->
     exists b1 wa wb,
       test_vercel_deployment E u wa = (Ret b1, wb) /\
       sent wc = sent wb /\
       results = dict_set "vercel" b [("local", bl); ("vercel", b1)]).
Proof.
  unfold collect_results, vercel_given. cbn [arg_local arg_vercel arg_both].
  rewrite orb_true_r. intros H.
  step_console H w1 Hf1 Hs1. step_console H w2 Hf2 Hs2.
  apply bind_Ret_inv in H. destruct H as (r0 & w3 & H0 & H). cbn beta in H.
  step_console H0 w4 Hf4 Hs4. step_console H0 w5 Hf5 Hs5.
  step_console H0 w6 Hf6 Hs6. step_console H0 w7 Hf7 Hs7.
  step_console H0 w8 Hf8 Hs8.
  apply bind_Ret_inv in H0. destruct H0 as (bl & w9 & Hbl & H0). cbn beta in H0.
  injection H0 as <- <-.
  apply bind_Ret_inv in H. destruct H as (r1 & w10 & H1 & H). cbn beta in H.
  apply bind_Ret_inv in H. destruct H as (r2 & w11 & H2 & H). cbn beta in H.
  injection H as <- <-.
  step_console H2 w12 Hf12 Hs12. step_console H2 w13 Hf13 Hs13.
  step_console H2 w14 Hf14 Hs14.
  apply bind_Ret_inv in H2. destruct H2 as (b & w15 & Hb & H2). cbn beta in H2.
  injection H2 as <- <-.
  exists bl, b, w14.
  assert (Hr1 : (u = EmptyString /\ r1 = [("local", bl)] /\ w10 = w9) \/
                (u <> EmptyString /\ exists b1 wa,
                   test_vercel_deployment E u wa = (Ret b1, w10) /\
                   r1 = [("local", bl); ("vercel", b1)])).
  { destruct (String.eqb_spec u EmptyString) as [->|Hne].
    - left. injection H1 as <- <-. auto.
    - right. split; [exact Hne|].
      step_console H1 w16 Hf16 Hs16.
      apply bind_Ret_inv in H1. destruct H1 as (b1 & w17 & Hb1 & H1). cbn beta in H1.
      injection H1 as <- <-. exists b1, w16. split; [exact Hb1 | reflexivity]. }
  split; [exact Hb|].
  assert (Hres : dict_set "vercel" b r1 = [("local", bl); ("vercel", b)]).
  { destruct Hr1 as [(_ & -> & _)|(_ & b1 & wa & _ & ->)]; reflexivity. }
  split; [exact Hres|]. rewrite Hres.
  split; [reflexivity|]. split; [reflexivity|].
  intros Hne. destruct Hr1 as [(Hu & _)|(_ & b1 & wa & Hb1 & ->)]; [contradiction|].
  exists b1, wa, w10. split; [exact Hb1|]. split; [congruence | reflexivity].
Qed.

Lemma both_overwrites_given_url_witness :
  let args := MkArgs false (Some "https://mine.vercel.app") true in
  exists bl b wc,
    test_vercel_deployment offline example_url wc
      = (Ret b, snd (collect_results offline args empty_world)) /\
    [("local", offline_local_bundle); ("vercel", offline_remote_bundle)]
      = [("local", bl); ("vercel", b)] /\
    dict_lookup "vercel" [("local", offline_local_bundle); ("vercel", offline_remote_bundle)]
      = Some b /\
    vercel_lines offline [("local", offline_local_bundle); ("vercel", offline_remote_bundle)]
      = vercel_lines offline [("vercel", b)] /\
    ("https://mine.vercel.app" <> EmptyString ->
     exists b1 wa wb,
       test_vercel_deployment offline "https://mine.vercel.app" wa = (Ret b1, wb) /\
       sent wc = sent wb /\
       [("local", offline_local_bundle); ("vercel", offline_remote_bundle)]
         = dict_set "vercel" b [("local", bl); ("vercel", b1)]).
Proof.
  intros args.
  apply (both_overwrites_given_url offline false "https://mine.vercel.app" empty_world
           (snd (collect_results offline args empty_world))
           [("local", offline_local_bundle); ("vercel", offline_remote_bundle)]).
  vm_compute. reflexivity.
Defined.

(** ** The runners on a payload that is not an object *)

(** C5 fails on the code.  The health endpoint answers 200 with a JSON array:
    the health probe reports "success", the diagnostics of the runner call
    [.get] on the array, and the AttributeError leaves the runner after one
    request; the capabilities and main probes never run and no bundle is
    returned.  Both runners behave so. *)
Theorem runners_abort_on_array_payload :
  fst (run_probe array_server Health "http://localhost:8000" empty_world)
    = Ret (probe_success (JList [])) /\
  fst (test_local_server array_server empty_world)
    = Raise (Exn AttributeError "'list' object has no attribute 'get'") /\
  sent (snd (test_local_server array_server empty_world))
    = [health_request "http://localhost:8000"] /\
  fst (test_vercel_deployment array_server "https://app.vercel.app" empty_world)
    = Raise (Exn AttributeError "'list' object has no attribute 'get'") /\
  sent (snd (test_vercel_deployment array_server "https://app.vercel.app" empty_world))
    = [health_request "https://app.vercel.app"].
Proof. repeat split; vm_compute; reflexivity. Qed.

(** ** The artifact validator *)


(** What the config check does, state by state. *)
Lemma check_config_spec E w :
  check_config E w =
    match config_of E (files w) with
    | ConfigAbsent =>
        (Ret tt, MkWorld (files w) (stdout w ++ [config_not_found_line]) (sent w))
    | ConfigInvalid msg =>
        (Ret tt, MkWorld (files w)
                   (stdout w ++ [config_invalid_line (Exn JSONDecodeError msg)]) (sent w))
    | ConfigParsed v =>
        match py_contains "builds" v, py_contains "routes" v with
        | Ret has_builds, Ret has_routes =>
            (Ret tt, MkWorld (files w)
                       (stdout w ++ [config_valid_line;
                                     if has_builds && has_routes
                                     then config_sections_line
                                     else config_no_sections_line]) (sent w))
        | Raise e, _ | _, Raise e =>
            (Raise e, MkWorld (files w) (stdout w ++ [config_valid_line]) (sent w))
        end
    | ConfigFault e =>
        if exn_class_eqb (exn_cls e) FileNotFoundError then
          (Ret tt, MkWorld (files w) (stdout w ++ [config_not_found_line]) (sent w))
        else if exn_class_eqb (exn_cls e) JSONDecodeError then
          (Ret tt, MkWorld (files w) (stdout w ++ [config_invalid_line e]) (sent w))
        else (Raise e, w)
    end.
Proof.
  unfold check_config, config_of, try_except, bind, read_file, decode_json, lift,
    print_line, ret, raise.
  destruct (files w !! "vercel.json") as [c|]; [|reflexivity].
  destruct (read_fault E (files w) "vercel.json") as [[cls msg]|].
  { destruct cls; reflexivity. }
  destruct (json_loads E c) as [[cls msg]|v].
  { destruct cls; reflexivity. }
  destruct v as [| b | n | f | s | l | d]; cbn [py_contains type_name];
    try reflexivity.
  - destruct (is_substring "builds" s), (is_substring "routes" s);
      cbn; rewrite <- ?app_assoc; reflexivity.
  - destruct (existsb (json_is_str "builds") l), (existsb (json_is_str "routes") l);
      cbn; rewrite <- ?app_assoc; reflexivity.
  - destruct (dict_lookup "builds" d), (dict_lookup "routes" d);
      cbn; rewrite <- ?app_assoc; reflexivity.
Qed.

Lemma check_imports_loop_spec content l acc w :
  check_imports_loop content l acc w =
    (Ret (acc ++ List.filter (fun imp => negb (is_substring imp content)) l)%list,
     MkWorld (files w) (stdout w ++ map (import_line content) l) (sent w)).
Proof.
  revert acc w. induction l as [|imp l IH]; intros acc w.
  - cbn. rewrite !app_nil_r. destruct w; reflexivity.
  - cbn [check_imports_loop map List.filter]. unfold import_line at 1.
    destruct (is_substring imp content); cbn [negb].
    + rewrite bind_print. rewrite IH. cbn [files stdout sent].
      rewrite <- app_assoc. reflexivity.
    + rewrite bind_print. rewrite IH. cbn [files stdout sent].
      rewrite <- !app_assoc. reflexivity.
Qed.

(** What the import check does: it reports the file as not found, prints a
    line per required name, or lets the exception of the read through. *)
Lemma check_imports_spec E w :
  check_imports E w =
    match files w !! "api/index.py" with
    | None =>
        (Ret tt, MkWorld (files w) (stdout w ++ ["❌ api/index.py - File not found"]) (sent w))
    | Some content =>
        match read_fault E (files w) "api/index.py" with
        | None =>
            (Ret tt, MkWorld (files w)
                       (stdout w ++ map (import_line content) required_imports) (sent w))
        | Some e =>
            if exn_class_eqb (exn_cls e) FileNotFoundError then
              (Ret tt, MkWorld (files w)
                         (stdout w ++ ["❌ api/index.py - File not found"]) (sent w))
            else (Raise e, w)
        end
    end.
Proof.
  unfold check_imports, try_except, bind at 1, read_file.
  destruct (files w !! "api/index.py") as [content|]; [|reflexivity].
  destruct (read_fault E (files w) "api/index.py") as [e|].
  - destruct (exn_class_eqb (exn_cls e) FileNotFoundError); reflexivity.
  - unfold bind. rewrite check_imports_loop_spec. reflexivity.
Qed.



Lemma absent_paths_nil fs :
  absent_paths fs = [] <-> forall p, In p (map fst required_files) -> is_Some (fs !! p).
Proof.
  unfold absent_paths. generalize (map fst required_files) as l.
  induction l as [|q l IH]; cbn [List.filter In].
  - split; [intros _ p [] | reflexivity].
  - destruct (bool_decide (is_Some (fs !! q))) eqn:Hq; cbn [negb].
    + apply bool_decide_eq_true in Hq. rewrite IH. split.
      * intros H p [<-|Hp]; [exact Hq | apply H; exact Hp].
      * intros H p Hp. apply H. right. exact Hp.
    + apply bool_decide_eq_false in Hq. split; [discriminate|].
      intros H. destruct Hq. apply H. left. reflexivity.
Qed.

Lemma absent_paths_exact fs p :
  In p (absent_paths fs) <-> In p (map fst required_files) /\ fs !! p = None.
Proof.
  unfold absent_paths. rewrite filter_In, negb_true_iff, bool_decide_eq_false.
  rewrite <- eq_None_not_Some. reflexivity.
Qed.








(** C4 fails on the code.  All six required files exist and vercel.json
    holds the JSON number 42: no required path is absent, yet the section
    check raises a TypeError out of the validator, which returns no verdict
    (the claim has it return True). *)
Theorem validate_raises_on_scalar_config :
  absent_paths (files (project_with "42")) = [] /\
  fst (check_required required_files [] (project_with "42")) = Ret [] /\
  fst (validate_vercel_files healthy (project_with "42"))
    = Raise (Exn TypeError "argument of type 'int' is not iterable").
Proof. repeat split; vm_compute; reflexivity. Qed.

(** C8 fails on the code.  A vercel.json that parses to a number makes the
    config check raise instead of reporting on the sections; one that parses
    to an array of the two names is reported as having both sections. *)
Theorem check_config_on_non_object :
  config_of healthy (files (project_with "42")) = ConfigParsed (JInt 42) /\
  fst (check_config healthy (project_with "42"))
    = Raise (Exn TypeError "argument of type 'int' is not iterable") /\
  printed_by (check_config healthy) (project_with "42") = [config_valid_line] /\
  config_of healthy (files (project_with names_array_text))
    = ConfigParsed (JList [JStr "builds"; JStr "routes"]) /\
  printed_by (check_config healthy) (project_with names_array_text)
    = [config_valid_line; config_sections_line].
Proof. repeat split; vm_compute; reflexivity. Qed.

(** ** The runners when every probe reports an error *)

Lemma bind_ret {A B : Type} (a : A) (k : A -> M B) w : bind (ret a) k w = k a w.
Proof. reflexivity. Qed.

(** A probe whose HTTP call fails in transport returns the error result. *)
Lemma probe_error_step E pr base_url w :
  probe_ready E pr w ->
  (forall log rq, exists e, server E log rq = Fails e /\ is_Exception (exn_cls e) = true) ->
  exists e w',
    run_probe E pr base_url w = (Ret (probe_error e), w') /\
    sent w' = (sent w ++ [probe_request pr base_url])%list /\
    (pr <> MainApi -> files w' = files w).
Proof.
  intros Hready Hsrv.
  destruct (Hsrv (sent w) (probe_request pr base_url)) as (e & He & Hcls).
  pose proof (http_call_transport E _ w e He) as Hcall.
  exists e.
  destruct pr; cbn [run_probe probe_request probe_ready] in *.
  - destruct (test_health_endpoint_spec E base_url w) as [l ->].
    rewrite Hcall. cbn [probe_outcome]. rewrite Hcls. eexists. split; [reflexivity|].
    split; [reflexivity | intros _; reflexivity].
  - destruct (test_capabilities_endpoint_spec E base_url w) as [l ->].
    rewrite Hcall. cbn [probe_outcome]. rewrite Hcls. eexists. split; [reflexivity|].
    split; [reflexivity | intros _; reflexivity].
  - destruct Hready as [p Hp].
    destruct (test_main_api_endpoint_spec E base_url w p Hp) as [l ->].
    rewrite Hcall. cbn [probe_outcome]. rewrite Hcls. eexists. split; [reflexivity|].
    split; [reflexivity | intros H; destruct (H eq_refl)].
Qed.

Lemma bind_now {B : Type} E (k : float -> M B) w :
  bind (now E) k w = k (time_time E w) w.
Proof. reflexivity. Qed.

Ltac print_step := rewrite bind_print; cbn beta; cbn [files stdout sent].

(** One probe of a runner, in the all-errors case: the probe, the status
    line, the skipped diagnostics. *)
Ltac error_probe_step E pr Hsrv Hready :=
  match goal with
  | |- context [bind (?probe E ?base) _ ?W] =>
      let e := fresh "e" in
      let w1 := fresh "w" in
      let Hrun := fresh "Hrun" in
      let Hs := fresh "Hs" in
      let Hf := fresh "Hf" in
      destruct (probe_error_step E pr base W Hready Hsrv) as (e & w1 & Hrun & Hs & Hf);
      cbn [run_probe probe_request files stdout sent] in Hrun, Hs, Hf;
      rewrite (bind_Ret_intro _ _ _ _ _ Hrun); cbn beta;
      rewrite bind_print; cbn beta;
      change (String.eqb (status (probe_error e)) "success") with false; cbn iota;
      rewrite bind_ret
  end.

(** No abort on a failed probe: when the temporary file can be created and
    every request fails in transport, both runners still run the three
    probes and return their bundle. *)
Lemma runners_continue_after_errors E w :
  (exists p, tmp_created E (files w) p) ->
  (forall log rq, exists e, server E log rq = Fails e /\ is_Exception (exn_cls e) = true) ->
  (exists b w', test_local_server E w = (Ret b, w')) /\
  (forall u, exists b w', test_vercel_deployment E u w = (Ret b, w')).
Proof.
  intros Htmp Hsrv. split; [|intros u].
  - unfold test_local_server. cbn zeta.
    do 4 print_step.
    error_probe_step E Health Hsrv I.
    error_probe_step E Capabilities Hsrv I.
    assert (Hready : probe_ready E MainApi w1).
    { cbn [probe_ready]. rewrite (Hf0 ltac:(discriminate)).
      cbn [files]. rewrite (Hf ltac:(discriminate)). exact Htmp. }
    error_probe_step E MainApi Hsrv Hready.
    eexists. eexists. reflexivity.
  - unfold test_vercel_deployment.
    do 4 print_step.
    error_probe_step E Health Hsrv I.
    error_probe_step E Capabilities Hsrv I.
    assert (Hready : probe_ready E MainApi w1).
    { cbn [probe_ready]. rewrite (Hf0 ltac:(discriminate)).
      cbn [files]. rewrite (Hf ltac:(discriminate)). exact Htmp. }
    print_step.
    rewrite bind_now. cbn beta.
    match goal with
    | |- context [bind (test_main_api_endpoint E u) _ ?W] =>
        destruct (probe_error_step E MainApi u W Hready Hsrv) as (e1 & w2 & Hrun1 & _)
    end.
    cbn [run_probe] in Hrun1. rewrite (bind_Ret_intro _ _ _ _ _ Hrun1). cbn beta.
    rewrite bind_now. cbn beta zeta.
    rewrite bind_print. cbn beta.
    change (String.eqb (status (probe_error e1)) "success") with false. cbn iota.
    rewrite bind_ret.
    eexists. eexists. reflexivity.
Qed.

(** * Further properties of the probes *)

Lemma sent_by_app {A : Type} (m : M A) w rqs :
  sent (snd (m w)) = (sent w ++ rqs)%list -> sent_by m w = rqs.
Proof. unfold sent_by. intros ->. apply drop_app_length. Qed.

(** X1.  A probe that gets to its HTTP call issues exactly one request, the
    one of its endpoint (GET <base>/health and GET
    <base>/api/workflow-capabilities with timeout 30; POST <base>/api/ with
    timeout 300, the workload read back from the temporary file as the
    text/plain file field questions_txt, and the two form fields), whether the
    call succeeds or fails: there is no retry, and the result is what
    [except Exception] makes of that one call. *)
Theorem probe_issues_one_request (E : Env) (pr : probe) (base_url : string) (w : World) :
  probe_ready E pr w ->
  sent_by (run_probe E pr base_url) w = [probe_request pr base_url] /\
  fst (run_probe E pr base_url w)
    = probe_outcome (fst (http_call E (probe_request pr base_url) w)).
Proof.
  intros Hready.
  destruct (run_probe_cases E pr base_url w) as [(_ & Ho & Hs)|(-> & Hno & _)].
  - split; [apply sent_by_app; exact Hs | exact Ho].
  - destruct Hready as [p Hp]. destruct (Hno p Hp).
Qed.

Lemma probe_issues_one_request_witness :
  sent_by (run_probe failing_server MainApi "http://localhost:8000") empty_world
    = [main_request "http://localhost:8000"] /\
  fst (run_probe failing_server MainApi "http://localhost:8000" empty_world)
    = probe_outcome
        (fst (http_call failing_server (main_request "http://localhost:8000") empty_world)).
Proof.
  apply (probe_issues_one_request failing_server MainApi "http://localhost:8000" empty_world).
  exists tmp_path. repeat split.
Defined.

(** X2.  When [create_test_questions_file] raises, the main probe raises that
    very exception (the call is outside the [try]): no error result is
    returned, no request is issued and only the announcement is printed.
    Where [NamedTemporaryFile] itself raises (a FileNotFoundError when no
    temporary directory is usable) the file system is untouched; where the
    write or the close of the file raises, the file that was created is left
    behind, empty or with what the failed flush has written. *)
Theorem main_probe_raises_without_tmp_file (E : Env) (base_url : string) (w : World) :
  let announced := (stdout w ++ ["🔍 Testing main API endpoint..."])%list in
  let run := test_main_api_endpoint E base_url w in
  (forall e, mkstemp E (files w) = inl e ->
     run = (Raise e, MkWorld (files w) announced (sent w))) /\
  (forall p e, mkstemp E (files w) = inr p -> files w !! p = None ->
     write_fault E (<[p := EmptyString]> (files w)) p = Some e ->
     run = (Raise e, MkWorld (<[p := EmptyString]> (files w)) announced (sent w))) /\
  (forall p e c, mkstemp E (files w) = inr p -> files w !! p = None ->
     write_fault E (<[p := EmptyString]> (files w)) p = None ->
     close_fault E (<[p := questions_content]> (<[p := EmptyString]> (files w))) p
       = Some (e, c) ->
     run = (Raise e, MkWorld (<[p := c]> (files w)) announced (sent w))) /\
  ((forall p, ~ tmp_created E (files w) p) ->
     exists e, fst run = Raise e /\ sent (snd run) = sent w /\ stdout (snd run) = announced).
Proof.
  intros announced run. subst announced run.
  unfold test_main_api_endpoint. rewrite bind_print. cbn beta.
  split; [|split; [|split]].
  - intros e Hmk.
    unfold create_test_questions_file, named_temporary_file, bind at 1 2.
    cbn zeta. cbn [files stdout sent]. rewrite Hmk. reflexivity.
  - intros p e Hmk Hfresh Hwr.
    unfold create_test_questions_file, named_temporary_file, file_write, bind at 1 2 3.
    cbn zeta. cbn [files stdout sent]. rewrite Hmk, Hfresh. cbn [files stdout sent].
    rewrite Hwr. reflexivity.
  - intros p e c Hmk Hfresh Hwr Hcl.
    unfold create_test_questions_file, named_temporary_file, file_write, file_close,
      bind at 1 2 3 4.
    cbn zeta. cbn [files stdout sent]. rewrite Hmk, Hfresh. cbn [files stdout sent].
    rewrite Hwr. cbn [files stdout sent]. rewrite Hcl. cbn [files stdout sent].
    rewrite !insert_insert_eq. reflexivity.
  - intros Hno.
    match goal with
    | |- context [bind (create_test_questions_file E) _ ?W] =>
        destruct (create_test_questions_file_fails E W Hno) as (e & fs' & Hc & _)
    end.
    rewrite (bind_Raise_intro _ _ _ _ _ Hc). exists e. auto.
Qed.

Lemma main_probe_raises_without_tmp_file_witness :
  test_main_api_endpoint no_tmp "http://localhost:8000" empty_world =
    (Raise no_tmp_dir,
     MkWorld (files empty_world)
       (stdout empty_world ++ ["🔍 Testing main API endpoint..."])
       (sent empty_world)) /\
  test_main_api_endpoint full_disk "http://localhost:8000" empty_world =
    (Raise no_space,
     MkWorld (<[tmp_path := EmptyString]> (files empty_world))
       (stdout empty_world ++ ["🔍 Testing main API endpoint..."])
       (sent empty_world)).
Proof.
  split.
  - apply (proj1 (main_probe_raises_without_tmp_file no_tmp "http://localhost:8000"
                    empty_world)).
    reflexivity.
  - apply (proj1 (proj2 (proj2 (main_probe_raises_without_tmp_file full_disk
                                  "http://localhost:8000" empty_world)))
             tmp_path no_space EmptyString); reflexivity.
Defined.

(** X3.  An exception of the request that is not an [Exception] (a
    KeyboardInterrupt) is not turned into an error result: it leaves the
    probe as it is.  The main probe still runs its cleanup on the way out:
    when [os.unlink] succeeds the temporary file is gone. *)
Theorem probe_lets_base_exceptions_through (E : Env) (pr : probe) (base_url : string)
    (w : World) (e : exn) :
  probe_ready E pr w ->
  server E (sent w) (probe_request pr base_url) = Fails e ->
  is_Exception (exn_cls e) = false ->
  fst (run_probe E pr base_url w) = Raise e /\
  ((forall p, unlink_fault E (<[p := questions_content]> (files w)) p = None) ->
   files (snd (run_probe E pr base_url w)) = files w).
Proof.
  intros Hready He Hcls.
  pose proof (http_call_transport E _ w e He) as Hcall.
  destruct pr; cbn [run_probe probe_request probe_ready] in *.
  - destruct (test_health_endpoint_spec E base_url w) as [l ->].
    rewrite Hcall. cbn [probe_outcome fst snd files]. rewrite Hcls. auto.
  - destruct (test_capabilities_endpoint_spec E base_url w) as [l ->].
    rewrite Hcall. cbn [probe_outcome fst snd files]. rewrite Hcls. auto.
  - destruct Hready as [p Hp].
    destruct (test_main_api_endpoint_spec E base_url w p Hp) as [l ->].
    rewrite Hcall. cbn [probe_outcome fst snd files]. rewrite Hcls.
    split; [reflexivity|]. intros Hun. rewrite (Hun p). reflexivity.
Qed.

Lemma probe_lets_base_exceptions_through_witness :
  fst (run_probe interrupted MainApi "http://localhost:8000" empty_world)
    = Raise (Exn KeyboardInterrupt EmptyString) /\
  ((forall p, unlink_fault interrupted (<[p := questions_content]> (files empty_world)) p
              = None) ->
   files (snd (run_probe interrupted MainApi "http://localhost:8000" empty_world))
     = files empty_world).
Proof.
  apply (probe_lets_base_exceptions_through interrupted MainApi "http://localhost:8000"
           empty_world (Exn KeyboardInterrupt EmptyString)).
  - exists tmp_path. repeat split.
  - reflexivity.
  - reflexivity.
Defined.

(** X4.  No probe alters a file that exists when it starts, whatever the
    service and the temporary directory do; the health and capabilities
    probes leave the whole file system as it is. *)
Theorem probes_keep_existing_files (E : Env) (pr : probe) (base_url : string)
    (w : World) (q c : string) :
  files w !! q = Some c ->
  files (snd (run_probe E pr base_url w)) !! q = Some c /\
  (pr <> MainApi -> files (snd (run_probe E pr base_url w)) = files w).
Proof.
  intros Hq.
  destruct pr; cbn [run_probe].
  - destruct (test_health_endpoint_spec E base_url w) as [l ->]. cbn. auto.
  - destruct (test_capabilities_endpoint_spec E base_url w) as [l ->]. cbn. auto.
  - split; [|intros H; destruct (H eq_refl)].
    destruct (tmp_created_dec E (files w)) as [[p Hp]|Hno].
    + destruct (test_main_api_endpoint_spec E base_url w p Hp) as [l ->].
      cbn [snd files].
      destruct (unlink_fault E (<[p:=questions_content]> (files w)) p); [|exact Hq].
      rewrite lookup_insert_ne; [exact Hq|].
      intros ->. destruct Hp as (_ & Hp & _). congruence.
    + destruct (test_main_api_endpoint_no_tmp E base_url w Hno) as (e & fs' & -> & Hfs).
      cbn [snd files]. destruct Hfs as [->|(p & c' & Hp & ->)]; [exact Hq|].
      rewrite lookup_insert_ne; [exact Hq|]. intros ->. congruence.
Qed.

Lemma probes_keep_existing_files_witness :
  files (snd (run_probe locked_tmp MainApi "http://localhost:8000" (project_with "42")))
    !! "vercel.json" = Some "42" /\
  (MainApi <> MainApi ->
   files (snd (run_probe locked_tmp MainApi "http://localhost:8000" (project_with "42")))
     = files (project_with "42")).
Proof.
  apply (probes_keep_existing_files locked_tmp MainApi "http://localhost:8000"
           (project_with "42") "vercel.json" "42").
  vm_compute. reflexivity.
Defined.

(** * Further properties of the runners *)

Lemma http_call_result E rq w : fst (http_call E rq w) = http_result E (sent w) rq.
Proof. unfold http_result. apply http_call_sent_only. reflexivity. Qed.

(** The results of a run of the three probes, read against the log. *)
Lemma runner_results E base_url w wh wh' wc wc' w0 w1 h c api :
  test_health_endpoint E base_url wh = (Ret h, wh') -> sent wh = sent w ->
  test_capabilities_endpoint E base_url wc = (Ret c, wc') -> sent wc = sent wh' ->
  test_main_api_endpoint E base_url w0 = (Ret api, w1) -> sent w0 = sent wc' ->
  Ret h = probe_outcome (http_result E (sent w) (health_request base_url)) /\
  Ret c = probe_outcome
            (http_result E (sent w ++ [health_request base_url])
               (capabilities_request base_url)) /\
  Ret api = probe_outcome
              (http_result E
                 (sent w ++ [health_request base_url; capabilities_request base_url])
                 (main_request base_url)).
Proof.
  intros Hh Hsh Hc Hsc Ha Hsa.
  destruct (probe_run_sent E Health base_url wh h wh' Hh) as [Ho1 H1].
  destruct (probe_run_sent E Capabilities base_url wc c wc' Hc) as [Ho2 H2].
  destruct (probe_run_sent E MainApi base_url w0 api w1 Ha) as [Ho3 _].
  cbn [probe_request] in *. rewrite http_call_result in Ho1, Ho2, Ho3.
  rewrite Hsh in Ho1. rewrite Hsc, H1, Hsh in Ho2.
  rewrite Hsa, H2, Hsc, H1, Hsh, <- app_assoc in Ho3.
  auto.
Qed.

(** X5.  A run of the local runner that returns has issued exactly the
    health, capabilities and main requests, in that order, against
    http://localhost:8000; its bundle has exactly the keys health,
    capabilities and main_api, in that order, no duration; and each entry is
    what its probe makes of its own HTTP call, whatever the other two
    calls gave. *)
Theorem local_runner_bundle (E : Env) (w w' : World) (b : list (string * bundle_value)) :
  test_local_server E w = (Ret b, w') ->
  exists h c api,
    b = [("health", BProbe h); ("capabilities", BProbe c); ("main_api", BProbe api)] /\
    dict_lookup "duration" b = None /\
    sent w' = (sent w ++ runner_requests_of local_url)%list /\
    Ret h = probe_outcome (http_result E (sent w) (health_request local_url)) /\
    Ret c = probe_outcome
              (http_result E (sent w ++ [health_request local_url])
                 (capabilities_request local_url)) /\
    Ret api = probe_outcome
                (http_result E
                   (sent w ++ [health_request local_url; capabilities_request local_url])
                   (main_request local_url)).
Proof.
  intros Hrun.
  destruct (test_local_server_inv E w b w' Hrun)
    as (wh & wh' & wc & wc' & w0 & w1 & h & c & api &
        Hh & Hsh & _ & Hc & Hsc & Ha & Hsa & Hs' & _ & ->).
  destruct (runner_requests E local_url w wh wh' wc wc' w0 w1 h c api
              Hh Hsh Hc Hsc Ha Hsa) as [_ H1].
  destruct (runner_results E local_url w wh wh' wc wc' w0 w1 h c api
              Hh Hsh Hc Hsc Ha Hsa) as (R1 & R2 & R3).
  exists h, c, api. split; [reflexivity|]. split; [reflexivity|].
  split; [rewrite Hs'; exact H1|]. auto.
Qed.

Lemma local_runner_bundle_witness :
  exists h c api,
    offline_local_bundle
      = [("health", BProbe h); ("capabilities", BProbe c); ("main_api", BProbe api)] /\
    dict_lookup "duration" offline_local_bundle = None /\
    sent (snd (test_local_server offline empty_world))
      = (sent empty_world ++ runner_requests_of local_url)%list /\
    Ret h = probe_outcome (http_result offline (sent empty_world) (health_request local_url)) /\
    Ret c = probe_outcome
              (http_result offline (sent empty_world ++ [health_request local_url])
                 (capabilities_request local_url)) /\
    Ret api = probe_outcome
                (http_result offline
                   (sent empty_world ++
                    [health_request local_url; capabilities_request local_url])
                   (main_request local_url)).
Proof.
  apply (local_runner_bundle offline empty_world
           (snd (test_local_server offline empty_world)) offline_local_bundle).
  vm_compute. reflexivity.
Defined.

(** X6.  A run of the remote runner that returns has issued exactly the
    health, capabilities and main requests, in that order, against the given
    URL; its bundle has the keys health, capabilities, main_api and duration,
    in that order; and each probe entry is what its probe makes of its own
    HTTP call. *)
Theorem remote_runner_bundle (E : Env) (vercel_url : string) (w w' : World)
    (b : list (string * bundle_value)) :
  test_vercel_deployment E vercel_url w = (Ret b, w') ->
  exists h c api d,
    b = [("health", BProbe h); ("capabilities", BProbe c); ("main_api", BProbe api);
         ("duration", BFloat d)] /\
    sent w' = (sent w ++ runner_requests_of vercel_url)%list /\
    Ret h = probe_outcome (http_result E (sent w) (health_request vercel_url)) /\
    Ret c = probe_outcome
              (http_result E (sent w ++ [health_request vercel_url])
                 (capabilities_request vercel_url)) /\
    Ret api = probe_outcome
                (http_result E
                   (sent w ++ [health_request vercel_url; capabilities_request vercel_url])
                   (main_request vercel_url)).
Proof.
  intros Hrun.
  destruct (test_vercel_deployment_inv E vercel_url w b w' Hrun)
    as (wh & wh' & wc & wc' & w0 & w1 & h & c & api &
        Hh & Hsh & _ & Hc & Hsc & Ha & Hsa & Hs' & _ & ->).
  destruct (runner_requests E vercel_url w wh wh' wc wc' w0 w1 h c api
              Hh Hsh Hc Hsc Ha Hsa) as [_ H1].
  destruct (runner_results E vercel_url w wh wh' wc wc' w0 w1 h c api
              Hh Hsh Hc Hsc Ha Hsa) as (R1 & R2 & R3).
  exists h, c, api, (PrimFloat.sub (time_time E w1) (time_time E w0)).
  split; [reflexivity|]. split; [rewrite Hs'; exact H1|]. auto.
Qed.

Lemma remote_runner_bundle_witness :
  exists h c api d,
    healthy_remote_bundle
      = [("health", BProbe h); ("capabilities", BProbe c); ("main_api", BProbe api);
         ("duration", BFloat d)] /\
    sent (snd (test_vercel_deployment healthy "https://app.vercel.app" empty_world))
      = (sent empty_world ++ runner_requests_of "https://app.vercel.app")%list /\
    Ret h = probe_outcome
              (http_result healthy (sent empty_world) (health_request "https://app.vercel.app")) /\
    Ret c = probe_outcome
              (http_result healthy
                 (sent empty_world ++ [health_request "https://app.vercel.app"])
                 (capabilities_request "https://app.vercel.app")) /\
    Ret api = probe_outcome
                (http_result healthy
                   (sent empty_world ++
                    [health_request "https://app.vercel.app";
                     capabilities_request "https://app.vercel.app"])
                   (main_request "https://app.vercel.app")).
Proof.
  apply (remote_runner_bundle healthy "https://app.vercel.app" empty_world
           (snd (test_vercel_deployment healthy "https://app.vercel.app" empty_world))
           healthy_remote_bundle).
  vm_compute. reflexivity.
Defined.

(** ** The runners within the contract of the service *)

Lemma bind_console {A B : Type} (m : M A) (k : A -> M B) w a :
  console_only m -> fst (m w) = Ret a ->
  exists lines, bind m k w = k a (MkWorld (files w) (stdout w ++ lines) (sent w)).
Proof.
  intros Hc Hr. destruct (Hc w) as [lines Hw]. exists lines.
  unfold bind. destruct (m w) as [o w1]. cbn in Hr, Hw. subst o w1. reflexivity.
Qed.

Lemma for_each_print_returns {A : Type} (f : A -> string) (l : list A) w :
  fst (for_each l (fun x => print_line (f x)) w) = Ret tt.
Proof.
  revert w. induction l as [|x l IH]; intros w; [reflexivity|].
  cbn [for_each]. rewrite bind_print. apply IH.
Qed.

Lemma str_items_returns l :
  forallb is_str l = true -> exists ss, str_items l = Ret ss.
Proof.
  induction l as [|x l IH]; cbn [forallb str_items]; [eexists; reflexivity|].
  intros H. apply andb_true_iff in H. destruct H as [Hx Hl].
  destruct x; try discriminate Hx. destruct (IH Hl) as [ss ->]. eexists. reflexivity.
Qed.

Ltac run_defs :=
  cbn [probe_success probe_error data status error];
  rewrite ?String.eqb_refl;
  cbn [bind lift ret probe_data probe_success probe_error data status error
       py_get py_len py_iter py_keys py_contains py_getitem print_line
       fst snd files stdout sent].

(** The diagnostics after a probe, as a step of a run: they only print, and
    they return once the side goal (they do not raise) is proved. *)
Ltac diag_step :=
  match goal with
  | |- exists b w', bind ?m ?k ?W = _ =>
      let Hd := fresh "Hd" in
      assert (Hd : fst (m W) = Ret tt);
      [ | let l := fresh "l" in
          destruct (bind_console m k W tt ltac:(console) Hd) as [l ->];
          clear Hd; cbn beta; cbn [files stdout sent] ]
  end.

(** One probe of a run within the contract: the probe returns a success or
    an error result; the status line and the diagnostics follow.  [ok] proves
    that the diagnostics of a success do not raise. *)
Ltac contract_case E log rq H Hp ok :=
  let v := fresh "v" in
  let e := fresh "e" in
  destruct (http_result E log rq) as [v|e];
  cbn [probe_outcome] in Hp; [|rewrite H in Hp];
  rewrite (bind_Ret_intro _ _ _ _ _ Hp); cbn beta; clear Hp; print_step;
  diag_step; [ first [reflexivity | ok v H] | | reflexivity | ].

Ltac health_stage E log rq H ok :=
  match goal with
  | |- context [bind (test_health_endpoint E ?base) _ ?W] =>
      let l := fresh "l" in
      let Hp := fresh "Hp" in
      destruct (test_health_endpoint_spec E base W) as [l Hp];
      rewrite http_call_result in Hp; cbn [files stdout sent] in Hp;
      contract_case E log rq H Hp ok
  end.

Ltac capabilities_stage E log rq H ok :=
  match goal with
  | |- context [bind (test_capabilities_endpoint E ?base) _ ?W] =>
      let l := fresh "l" in
      let Hp := fresh "Hp" in
      destruct (test_capabilities_endpoint_spec E base W) as [l Hp];
      rewrite http_call_result in Hp; cbn [files stdout sent] in Hp;
      contract_case E log rq H Hp ok
  end.

Ltac health_ok v H := destruct v; try discriminate H; reflexivity.

Ltac capabilities_local_ok v H :=
  let d := fresh "d" in
  let x := fresh "x" in
  destruct v as [| | | | | |d]; try discriminate H;
  unfold capabilities_shape, field_ok in H; run_defs;
  destruct (dict_lookup "available_workflows" d) as [x|];
  [destruct x; try discriminate H|]; run_defs; apply for_each_print_returns.

Ltac capabilities_remote_ok v H :=
  let d := fresh "d" in
  let x := fresh "x" in
  destruct v as [| | | | | |d]; try discriminate H;
  unfold capabilities_shape, field_ok in H; run_defs;
  destruct (dict_lookup "available_workflows" d) as [x|];
  [destruct x; try discriminate H|]; reflexivity.

Ltac main_local_ok v H :=
  let d := fresh "d" in
  let r := fresh "r" in
  let rd := fresh "rd" in
  destruct v as [| | | | | |d]; try discriminate H;
  unfold main_shape_local, field_ok in H; run_defs;
  destruct (dict_lookup "result" d) as [r|]; [|reflexivity];
  destruct (py_truthy r) eqn:?; [|reflexivity];
  destruct r as [| | | | | |rd]; try discriminate H; run_defs;
  destruct (dict_lookup "results" rd); destruct (dict_lookup "plot_base64" rd);
  reflexivity.

(** X8.  The local runner returns its bundle whenever the temporary file can
    be created (it is created, written and closed without an exception) and
    each endpoint answers within the contract: its HTTP call
    raises an [Exception], or yields an object of the shape the diagnostics
    read (for capabilities, available_workflows an array when given; for the
    main endpoint, result empty or an object when given). *)
Theorem local_runner_returns (E : Env) (w : World) :
  (exists p, tmp_created E (files w) p) ->
  answers_well E (sent w) (health_request local_url) health_shape ->
  answers_well E (sent w ++ [health_request local_url])
    (capabilities_request local_url) capabilities_shape ->
  answers_well E (sent w ++ [health_request local_url; capabilities_request local_url])
    (main_request local_url) main_shape_local ->
  exists b w', test_local_server E w = (Ret b, w').
Proof.
  intros [p Htmp] H1 H2 H3. unfold answers_well, local_url in *.
  assert (Hlog : (sent w ++ [health_request "http://localhost:8000";
                             capabilities_request "http://localhost:8000"])%list
                 = ((sent w ++ [health_request "http://localhost:8000"]) ++
                    [capabilities_request "http://localhost:8000"])%list)
    by (rewrite <- app_assoc; reflexivity).
  rewrite Hlog in H3. clear Hlog.
  unfold test_local_server. cbn zeta.
  do 4 print_step.
  health_stage E (sent w) (health_request "http://localhost:8000") H1 ltac:(health_ok);
  capabilities_stage E (sent w ++ [health_request "http://localhost:8000"])%list
    (capabilities_request "http://localhost:8000") H2 ltac:(capabilities_local_ok);
  (match goal with
   | |- context [bind (test_main_api_endpoint E ?base) _ ?W] =>
       destruct (test_main_api_endpoint_spec E base W p Htmp) as [l3 Hp3]
   end;
   rewrite http_call_result in Hp3; cbn [files stdout sent] in Hp3;
   contract_case E
     ((sent w ++ [health_request "http://localhost:8000"]) ++
      [capabilities_request "http://localhost:8000"])%list
     (main_request "http://localhost:8000") H3 Hp3 ltac:(main_local_ok));
  eexists; eexists; reflexivity.
Qed.

Ltac main_remote_ok v H :=
  let d := fresh "d" in
  let info := fresh "info" in
  let pd := fresh "pd" in
  let f := fresh "f" in
  let fl := fresh "fl" in
  let ss := fresh "ss" in
  destruct v as [| | | | | |d]; try discriminate H;
  unfold main_shape_remote, field_ok in H; run_defs;
  destruct (dict_lookup "processing_info" d) as [info|]; [|reflexivity];
  destruct (py_truthy info) eqn:?; [|reflexivity];
  destruct info as [| | | | | |pd]; try discriminate H; run_defs;
  cbn [negb orb] in H;
  destruct (dict_lookup "enhanced_features" pd) as [f|]; [|reflexivity];
  destruct f as [| | | | |fl|]; try discriminate H;
  cbn [is_str_list] in H; unfold py_join; cbn [py_iter];
  destruct (str_items_returns fl H) as [ss ->]; reflexivity.

(** X9.  The remote runner returns its bundle whenever the temporary file can
    be created (it is created, written and closed without an exception) and
    each endpoint answers within the contract: its HTTP call
    raises an [Exception], or yields an object of the shape the diagnostics
    read (for the main endpoint, processing_info empty or an object whose
    enhanced_features, when given, is an array of strings). *)
Theorem remote_runner_returns (E : Env) (vercel_url : string) (w : World) :
  (exists p, tmp_created E (files w) p) ->
  answers_well E (sent w) (health_request vercel_url) health_shape ->
  answers_well E (sent w ++ [health_request vercel_url])
    (capabilities_request vercel_url) capabilities_shape ->
  answers_well E (sent w ++ [health_request vercel_url; capabilities_request vercel_url])
    (main_request vercel_url) main_shape_remote ->
  exists b w', test_vercel_deployment E vercel_url w = (Ret b, w').
Proof.
  intros [p Htmp] H1 H2 H3. unfold answers_well in *.
  assert (Hlog : (sent w ++ [health_request vercel_url;
                             capabilities_request vercel_url])%list
                 = ((sent w ++ [health_request vercel_url]) ++
                    [capabilities_request vercel_url])%list)
    by (rewrite <- app_assoc; reflexivity).
  rewrite Hlog in H3. clear Hlog.
  unfold test_vercel_deployment.
  do 4 print_step.
  health_stage E (sent w) (health_request vercel_url) H1 ltac:(health_ok);
  capabilities_stage E (sent w ++ [health_request vercel_url])%list
    (capabilities_request vercel_url) H2 ltac:(capabilities_remote_ok);
  (print_step; rewrite bind_now; cbn beta;
   match goal with
   | |- context [bind (test_main_api_endpoint E ?base) _ ?W] =>
       destruct (test_main_api_endpoint_spec E base W p Htmp) as [l3 Hp3]
   end;
   rewrite http_call_result in Hp3; cbn [files stdout sent] in Hp3;
   destruct (http_result E
               ((sent w ++ [health_request vercel_url]) ++
                [capabilities_request vercel_url])%list
               (main_request vercel_url)) as [v3|e3];
   cbn [probe_outcome] in Hp3; [|rewrite H3 in Hp3];
   rewrite (bind_Ret_intro _ _ _ _ _ Hp3); cbn beta; clear Hp3;
   rewrite bind_now; cbn beta zeta; print_step;
   diag_step; [ first [reflexivity | main_remote_ok v3 H3] | | reflexivity | ]);
  eexists; eexists; reflexivity.
Qed.

Lemma local_runner_returns_witness :
  exists b w', test_local_server healthy empty_world = (Ret b, w').
Proof.
  apply (local_runner_returns healthy empty_world).
  - exists tmp_path. repeat split.
  - reflexivity.
  - reflexivity.
  - reflexivity.
Defined.

Lemma remote_runner_returns_witness :
  exists b w', test_vercel_deployment healthy "https://app.vercel.app" empty_world = (Ret b, w').
Proof.
  apply (remote_runner_returns healthy "https://app.vercel.app" empty_world).
  - exists tmp_path. repeat split.
  - reflexivity.
  - reflexivity.
  - reflexivity.
Defined.

Lemma http_result_fails E log rq e :
  server E log rq = Fails e -> http_result E log rq = Raise e.
Proof. intros H. unfold http_result. apply http_call_transport. exact H. Qed.

Lemma failed_outcome E log rq r :
  (forall log rq, exists e, server E log rq = Fails e /\ is_Exception (exn_cls e) = true) ->
  Ret r = probe_outcome (http_result E log rq) ->
  exists e, server E log rq = Fails e /\ r = probe_error e.
Proof.
  intros Hsrv Hr. destruct (Hsrv log rq) as (e & He & Hcls).
  rewrite (http_result_fails E log rq e He) in Hr. cbn [probe_outcome] in Hr.
  rewrite Hcls in Hr. injection Hr as ->. exists e. auto.
Qed.

(** X7.  No abort on failure: when the temporary file can be created (it is
    created, written and closed without an exception) and
    every request fails with an [Exception] (no server is listening), both
    runners still issue all three requests and return their bundle, in which
    each of the three probes has status "error", no data, and the text of its
    own exception as error. *)
Theorem runners_report_every_failure (E : Env) (w : World) :
  (exists p, tmp_created E (files w) p) ->
  (forall log rq, exists e, server E log rq = Fails e /\ is_Exception (exn_cls e) = true) ->
  (exists e1 e2 e3 w',
     test_local_server E w =
       (Ret [("health", BProbe (probe_error e1)); ("capabilities", BProbe (probe_error e2));
             ("main_api", BProbe (probe_error e3))], w') /\
     server E (sent w) (health_request local_url) = Fails e1 /\
     server E (sent w ++ [health_request local_url]) (capabilities_request local_url)
       = Fails e2 /\
     server E (sent w ++ [health_request local_url; capabilities_request local_url])
       (main_request local_url) = Fails e3 /\
     sent w' = (sent w ++ runner_requests_of local_url)%list) /\
  (forall u, exists e1 e2 e3 d w',
     test_vercel_deployment E u w =
       (Ret [("health", BProbe (probe_error e1)); ("capabilities", BProbe (probe_error e2));
             ("main_api", BProbe (probe_error e3)); ("duration", BFloat d)], w') /\
     server E (sent w) (health_request u) = Fails e1 /\
     server E (sent w ++ [health_request u]) (capabilities_request u) = Fails e2 /\
     server E (sent w ++ [health_request u; capabilities_request u]) (main_request u)
       = Fails e3 /\
     sent w' = (sent w ++ runner_requests_of u)%list).
Proof.
  intros Htmp Hsrv.
  destruct (runners_continue_after_errors E w Htmp Hsrv) as [(b & w' & Hrun) Hremote].
  split.
  - destruct (test_local_server_inv E w b w' Hrun)
      as (wh & wh' & wc & wc' & w0 & w1 & h & c & api &
          Hh & Hsh & _ & Hc & Hsc & Ha & Hsa & Hs' & _ & ->).
    destruct (runner_requests E local_url w wh wh' wc wc' w0 w1 h c api
                Hh Hsh Hc Hsc Ha Hsa) as [_ H1].
    destruct (runner_results E local_url w wh wh' wc wc' w0 w1 h c api
                Hh Hsh Hc Hsc Ha Hsa) as (R1 & R2 & R3).
    destruct (failed_outcome E _ _ h Hsrv R1) as (e1 & F1 & ->).
    destruct (failed_outcome E _ _ c Hsrv R2) as (e2 & F2 & ->).
    destruct (failed_outcome E _ _ api Hsrv R3) as (e3 & F3 & ->).
    exists e1, e2, e3, w'. split; [exact Hrun|]. repeat (split; [assumption|]).
    rewrite Hs'. exact H1.
  - intros u. destruct (Hremote u) as (b' & w'' & Hrun').
    destruct (test_vercel_deployment_inv E u w b' w'' Hrun')
      as (wh & wh' & wc & wc' & w0 & w1 & h & c & api &
          Hh & Hsh & _ & Hc & Hsc & Ha & Hsa & Hs' & _ & ->).
    destruct (runner_requests E u w wh wh' wc wc' w0 w1 h c api
                Hh Hsh Hc Hsc Ha Hsa) as [_ H1].
    destruct (runner_results E u w wh wh' wc wc' w0 w1 h c api
                Hh Hsh Hc Hsc Ha Hsa) as (R1 & R2 & R3).
    destruct (failed_outcome E _ _ h Hsrv R1) as (e1 & F1 & ->).
    destruct (failed_outcome E _ _ c Hsrv R2) as (e2 & F2 & ->).
    destruct (failed_outcome E _ _ api Hsrv R3) as (e3 & F3 & ->).
    exists e1, e2, e3, (PrimFloat.sub (time_time E w1) (time_time E w0)), w''.
    split; [exact Hrun'|]. repeat (split; [assumption|]).
    rewrite Hs'. exact H1.
Qed.

Lemma runners_report_every_failure_witness :
  exists e1 e2 e3 w',
    test_local_server offline empty_world =
      (Ret [("health", BProbe (probe_error e1)); ("capabilities", BProbe (probe_error e2));
            ("main_api", BProbe (probe_error e3))], w') /\
    server offline (sent empty_world) (health_request local_url) = Fails e1 /\
    server offline (sent empty_world ++ [health_request local_url])
      (capabilities_request local_url) = Fails e2 /\
    server offline
      (sent empty_world ++ [health_request local_url; capabilities_request local_url])
      (main_request local_url) = Fails e3 /\
    sent w' = (sent empty_world ++ runner_requests_of local_url)%list.
Proof.
  apply (runners_report_every_failure offline empty_world).
  - exists tmp_path. repeat split.
  - intros log rq. eexists. split; reflexivity.
Defined.

(** * Further properties of the entry point *)

(** X10.  With no run selected (neither --local nor --both, and --vercel
    absent or empty), [main] issues no request, touches no file, returns, and
    prints the banner, an empty summary and the local-failure guidance:
    nothing was tested, and the report says the local tests failed. *)
Theorem main_without_runs (E : Env) (args : Args) (w : World) :
  arg_local args = false -> arg_both args = false -> vercel_given args = None ->
  main E args w = (Ret tt, MkWorld (files w) (stdout w ++ idle_output) (sent w)).
Proof.
  intros Hl Hb Hv.
  assert (Hc : collect_results E args w =
               (Ret [], MkWorld (files w)
                          ((stdout w ++ ["🧪 API Testing Suite for TDS Project2"]) ++ [rule50])
                          (sent w))).
  { unfold collect_results. rewrite Hl, Hb, Hv. reflexivity. }
  unfold main. rewrite (bind_Ret_intro _ _ _ _ _ Hc). cbn beta.
  assert (Hs : print_summary []
                 (MkWorld (files w)
                    ((stdout w ++ ["🧪 API Testing Suite for TDS Project2"]) ++ [rule50])
                    (sent w)) =
               (Ret tt, MkWorld (files w)
                  (((((stdout w ++ ["🧪 API Testing Suite for TDS Project2"]) ++ [rule50])
                     ++ [nl ++ rule50]) ++ ["TEST SUMMARY"]) ++ [rule50])
                  (sent w))).
  { reflexivity. }
  rewrite (bind_Ret_intro _ _ _ _ _ Hs). cbn beta.
  unfold next_steps, idle_output. cbn [dict_lookup bind print_line ret files stdout sent].
  rewrite <- !app_assoc. reflexivity.
Qed.

Lemma main_without_runs_witness :
  main offline (MkArgs false (Some EmptyString) false) empty_world
    = (Ret tt, MkWorld (files empty_world) (stdout empty_world ++ idle_output)
                 (sent empty_world)).
Proof.
  apply (main_without_runs offline (MkArgs false (Some EmptyString) false) empty_world);
    reflexivity.
Defined.

Lemma vercel_ok_not_local results : ~ In vercel_ok_line (local_lines results).
Proof. unfold local_lines. intros H. destruct (local_ok results); distinct_lines. Qed.

Lemma vercel_bad_not_local results : ~ In vercel_bad_line (local_lines results).
Proof. unfold local_lines. intros H. destruct (local_ok results); distinct_lines. Qed.

(** X11.  The remote verdict of the summary: the line "Vercel deployment
    working correctly" is printed exactly when results holds a remote bundle
    in which every entry that is a probe result has status "success";
    "Vercel deployment has issues" exactly when it holds one with an entry
    that is a probe result of another status; neither when there was no
    remote run. *)
Theorem vercel_guidance (E : Env)
    (results : list (string * list (string * bundle_value))) (w : World) :
  let out := printed_by (next_steps E results) w in
  (In vercel_ok_line out <->
   exists b, dict_lookup "vercel" results = Some b /\
             forall k p, In (k, BProbe p) b -> status p = "success") /\
  (In vercel_bad_line out <->
   exists b, dict_lookup "vercel" results = Some b /\
             exists k p, In (k, BProbe p) b /\ status p <> "success") /\
  (dict_lookup "vercel" results = None ->
   ~ In vercel_ok_line out /\ ~ In vercel_bad_line out).
Proof.
  intros out. subst out. rewrite next_steps_printed. cbn [In].
  rewrite !in_app_iff.
  pose proof not_all_success_entries as Hbad.
  pose proof (vercel_ok_not_local results) as Hn1.
  pose proof (vercel_bad_not_local results) as Hn2.
  unfold vercel_lines.
  destruct (dict_lookup "vercel" results) as [b|].
  - destruct (all_success b) eqn:Hall.
    + split; [|split].
      * split.
        -- intros _. exists b. split; [reflexivity|]. apply all_success_entries. exact Hall.
        -- intros _. right. right. left. reflexivity.
      * split.
        -- intros [H|[H|H]]; [distinct_lines | contradiction |].
           destruct H as [H|H]; [distinct_lines|].
           destruct (dict_lookup "duration" b) as [[q|d]|];
             [| destruct (PrimFloat.ltb 10 d) |]; distinct_lines.
        -- intros (b' & [= <-] & Hp). apply Hbad in Hp. congruence.
      * intros [=].
    + split; [|split].
      * split.
        -- intros [H|[H|H]]; [distinct_lines | contradiction | distinct_lines].
        -- intros (b' & [= <-] & Hp). apply all_success_entries in Hp. congruence.
      * split.
        -- intros _. exists b. split; [reflexivity|]. apply Hbad. exact Hall.
        -- intros _. right. right. left. reflexivity.
      * intros [=].
  - split; [|split].
    + split.
      * intros [H|[H|[]]]; [distinct_lines | contradiction].
      * intros (b' & [=] & _).
    + split.
      * intros [H|[H|[]]]; [distinct_lines | contradiction].
      * intros (b' & [=] & _).
    + intros _. split; intros [H|[H|[]]]; try contradiction; distinct_lines.
Qed.

(** The three stages of [collect_results], for a run that returned. *)
Lemma collect_results_inv E args w results w' :
  collect_results E args w = (Ret results, w') ->
  exists r0 r1 wa wb,
    sent wa = (sent w ++ (if arg_local args || arg_both args
                          then runner_requests_of local_url else []))%list /\
    (if arg_local args || arg_both args
     then exists b, bundle_wf b /\ r0 = [("local", b)]
     else r0 = []) /\
    sent wb = (sent wa ++ match vercel_given args with
                          | Some u => runner_requests_of u
                          | None => []
                          end)%list /\
    match vercel_given args with
    | Some u => exists b, bundle_wf b /\ r1 = dict_set "vercel" b r0
    | None => r1 = r0
    end /\
    sent w' = (sent wb ++ (if arg_both args then runner_requests_of example_url else []))%list /\
    (if arg_both args
     then exists b w0, test_vercel_deployment E example_url w0 = (Ret b, w') /\
                       bundle_wf b /\ results = dict_set "vercel" b r1
     else results = r1).
Proof.
  unfold collect_results. intros H.
  step_console H w1 Hf1 Hs1. step_console H w2 Hf2 Hs2.
  apply bind_Ret_inv in H. destruct H as (r0 & wa & HA & H). cbn beta in H.
  apply bind_Ret_inv in H. destruct H as (r1 & wb & HB & H). cbn beta in H.
  apply bind_Ret_inv in H. destruct H as (r2 & wc & HC & H). cbn beta in H.
  injection H as <- <-.
  exists r0, r1, wa, wb.
  assert (HA' : sent wa = (sent w ++ (if arg_local args || arg_both args
                                      then runner_requests_of local_url else []))%list /\
                (if arg_local args || arg_both args
                 then exists b, bundle_wf b /\ r0 = [("local", b)]
                 else r0 = [])).
  { destruct (arg_local args || arg_both args).
    - step_console HA w3 Hf3 Hs3. step_console HA w4 Hf4 Hs4.
      step_console HA w5 Hf5 Hs5. step_console HA w6 Hf6 Hs6.
      step_console HA w7 Hf7 Hs7.
      apply bind_Ret_inv in HA. destruct HA as (b & w8 & Hb & HA). cbn beta in HA.
      injection HA as <- <-.
      destruct (test_local_server_shape E w7 b w8 Hb) as [(h & c & api & ->) Hs].
      split; [unfold runner_requests_of, local_url; congruence|].
      eexists. split; [|reflexivity].
      split; [apply runner_bundle_ok | intros q; discriminate].
    - injection HA as <- <-. rewrite app_nil_r. split; [congruence | reflexivity]. }
  destruct HA' as [HsA HrA]. split; [exact HsA|]. split; [exact HrA|].
  assert (HB' : sent wb = (sent wa ++ match vercel_given args with
                                      | Some u => runner_requests_of u
                                      | None => []
                                      end)%list /\
                match vercel_given args with
                | Some u => exists b, bundle_wf b /\ r1 = dict_set "vercel" b r0
                | None => r1 = r0
                end).
  { destruct (vercel_given args) as [u|].
    - step_console HB w3 Hf3 Hs3.
      apply bind_Ret_inv in HB. destruct HB as (b & w4 & Hb & HB). cbn beta in HB.
      injection HB as <- <-.
      destruct (test_vercel_deployment_shape E u w3 b w4 Hb)
        as [(h & c & api & d & ->) Hs].
      split; [unfold runner_requests_of; congruence|].
      eexists. split; [|reflexivity].
      split; [apply remote_bundle_ok | intros q; discriminate].
    - injection HB as <- <-. rewrite app_nil_r. split; reflexivity. }
  destruct HB' as [HsB HrB]. split; [exact HsB|]. split; [exact HrB|].
  destruct (arg_both args).
  - step_console HC w3 Hf3 Hs3. step_console HC w4 Hf4 Hs4.
    step_console HC w5 Hf5 Hs5.
    apply bind_Ret_inv in HC. destruct HC as (b & w6 & Hb & HC). cbn beta in HC.
    injection HC as <- <-.
    destruct (test_vercel_deployment_shape E example_url w5 b w6 Hb)
      as [(h & c & api & d & Heq) Hs].
    split; [unfold runner_requests_of; congruence|].
    exists b, w5. split; [exact Hb|]. split; [|reflexivity]. subst b.
    split; [apply remote_bundle_ok | intros q; discriminate].
  - injection HC as <- <-. rewrite app_nil_r. split; reflexivity.
Qed.

Lemma results_wf_set k b results :
  results_wf results -> bundle_wf b -> results_wf (dict_set k b results).
Proof.
  unfold results_wf. intros Hr Hb.
  induction Hr as [|[k' b'] rest Hb' Hrest IH]; cbn [dict_set].
  - constructor; [exact Hb | constructor].
  - destruct (String.eqb k k').
    + constructor; [exact Hb | exact Hrest].
    + constructor; [exact Hb' | exact IH].
Qed.

Lemma collect_results_wf E args w results w' :
  collect_results E args w = (Ret results, w') -> results_wf results.
Proof.
  intros H. destruct (collect_results_inv E args w results w' H)
    as (r0 & r1 & wa & wb & _ & HA & _ & HB & _ & HC).
  assert (H0 : results_wf r0).
  { destruct (arg_local args || arg_both args).
    - destruct HA as (b & Hb & ->). constructor; [exact Hb | constructor].
    - subst r0. constructor. }
  assert (H1 : results_wf r1).
  { destruct (vercel_given args).
    - destruct HB as (b & Hb & ->). apply results_wf_set; assumption.
    - subst r1. exact H0. }
  destruct (arg_both args).
  - destruct HC as (b & w0 & _ & Hb & ->). apply results_wf_set; assumption.
  - subst results. exact H1.
Qed.

Lemma results_wf_lookup results k b :
  results_wf results -> dict_lookup k results = Some b -> bundle_wf b.
Proof.
  unfold results_wf. intros Hr. induction Hr as [|[k' b'] rest Hb' _ IH]; cbn [dict_lookup].
  - discriminate.
  - destruct (String.eqb k k'); [intros [= <-]; exact Hb' | exact IH].
Qed.

Lemma console_only_next_steps E results : console_only (next_steps E results).
Proof. unfold next_steps. console. Qed.

(** X12.  Once the selected runs have returned, [main] cannot fail: for every
    command line, the summary and the closing guidance return, issue no
    request and touch no file; they only print. *)
Theorem summary_completes (E : Env) (args : Args) (w w1 : World)
    (results : list (string * list (string * bundle_value))) :
  collect_results E args w = (Ret results, w1) ->
  exists lines,
    main E args w = (Ret tt, MkWorld (files w1) (stdout w1 ++ lines) (sent w1)).
Proof.
  intros Hrun. pose proof (collect_results_wf E args w results w1 Hrun) as Hwf.
  unfold main. rewrite (bind_Ret_intro _ _ _ _ _ Hrun). cbn beta.
  assert (Hok : Forall (fun eb => Forall entry_ok (snd eb)) results).
  { unfold results_wf in Hwf. revert Hwf. apply List.Forall_impl.
    intros eb [H _]. exact H. }
  destruct (print_summary_returns results w1 Hok) as [l1 Hsum].
  rewrite (bind_Ret_intro _ _ _ _ _ Hsum). cbn beta.
  set (w2 := MkWorld (files w1) (stdout w1 ++ l1) (sent w1)).
  assert (Hret : fst (next_steps E results w2) = Ret tt).
  { apply next_steps_returns. intros b p Hb.
    destruct (results_wf_lookup results "vercel" b Hwf Hb) as [_ Hd]. apply Hd. }
  destruct (console_only_next_steps E results w2) as [l2 Hw].
  destruct (next_steps E results w2) as [o w3]. cbn in Hret, Hw. subst o w3.
  exists (l1 ++ l2)%list. subst w2. cbn [files stdout sent]. rewrite app_assoc. reflexivity.
Qed.

Lemma summary_completes_witness :
  let args := MkArgs false (Some "https://mine.vercel.app") true in
  let w1 := snd (collect_results offline args empty_world) in
  exists lines,
    main offline args empty_world
      = (Ret tt, MkWorld (files w1) (stdout w1 ++ lines) (sent w1)).
Proof.
  intros args w1.
  apply (summary_completes offline args empty_world w1
           [("local", offline_local_bundle); ("vercel", offline_remote_bundle)]).
  vm_compute. reflexivity.
Defined.

(** X13.  Which runs a command line selects: a run that reaches the summary
    has issued the requests of the local run (with --local or --both), then
    those against the given URL (with a non-empty --vercel), then those
    against the placeholder URL (with --both), in that order and nothing
    else; and the keys of [results] are local (with --local or --both)
    followed by vercel (with a non-empty --vercel or --both), each once. *)
Theorem runs_selected_by_flags (E : Env) (args : Args) (w w1 : World)
    (results : list (string * list (string * bundle_value))) :
  collect_results E args w = (Ret results, w1) ->
  sent w1 = (sent w ++ requests_for args)%list /\
  dict_keys results = keys_for args.
Proof.
  intros H. destruct (collect_results_inv E args w results w1 H)
    as (r0 & r1 & wa & wb & HsA & HA & HsB & HB & HsC & HC).
  split.
  - unfold requests_for. rewrite HsC, HsB, HsA, <- !app_assoc. reflexivity.
  - unfold keys_for.
    destruct (arg_local args || arg_both args).
    + destruct HA as (b & _ & ->).
      destruct (vercel_given args) as [u|].
      * destruct HB as (b1 & _ & ->).
        destruct (arg_both args); [destruct HC as (b2 & w0 & _ & _ & ->)|subst results];
          reflexivity.
      * subst r1.
        destruct (arg_both args); [destruct HC as (b2 & w0 & _ & _ & ->)|subst results];
          reflexivity.
    + subst r0.
      destruct (vercel_given args) as [u|].
      * destruct HB as (b1 & _ & ->).
        destruct (arg_both args); [destruct HC as (b2 & w0 & _ & _ & ->)|subst results];
          reflexivity.
      * subst r1.
        destruct (arg_both args); [destruct HC as (b2 & w0 & _ & _ & ->)|subst results];
          reflexivity.
Qed.

Lemma runs_selected_by_flags_witness :
  let args := MkArgs false (Some "https://mine.vercel.app") true in
  sent (snd (collect_results offline args empty_world))
    = (sent empty_world ++ requests_for args)%list /\
  dict_keys [("local", offline_local_bundle); ("vercel", offline_remote_bundle)]
    = keys_for args.
Proof.
  intros args.
  apply (runs_selected_by_flags offline args empty_world
           (snd (collect_results offline args empty_world))
           [("local", offline_local_bundle); ("vercel", offline_remote_bundle)]).
  vm_compute. reflexivity.
Defined.

(** * Further properties of the validator *)

Lemma check_required_lines l acc w :
  check_required l acc w =
    (Ret (acc ++ List.filter (fun p => negb (bool_decide (is_Some (files w !! p))))
                  (map fst l))%list,
     MkWorld (files w) (stdout w ++ map (required_line (files w)) l) (sent w)).
Proof.
  revert acc w. induction l as [|[file_path description] l IH]; intros acc w.
  - cbn. rewrite !app_nil_r. destruct w; reflexivity.
  - cbn [check_required map fst List.filter]. unfold bind at 1, path_exists at 1.
    unfold required_line at 1. cbn [fst snd].
    destruct (bool_decide (is_Some (files w !! file_path))) eqn:Hex; cbn [negb].
    + rewrite bind_print. rewrite IH. cbn [files stdout sent].
      rewrite <- app_assoc. reflexivity.
    + rewrite bind_print. rewrite IH. cbn [files stdout sent].
      rewrite <- !app_assoc. reflexivity.
Qed.

(** X14.  The file check collects exactly the required paths that do not
    exist, in the order of the table, prints one line per required file
    (marked MISSING exactly for the absent ones) and leaves the file system
    as it is. *)
Theorem missing_files_are_the_absent_ones (w : World) :
  check_required required_files [] w =
    (Ret (absent_paths (files w)),
     MkWorld (files w) (stdout w ++ map (required_line (files w)) required_files) (sent w)) /\
  (forall p, In p (absent_paths (files w)) <->
             In p (map fst required_files) /\ files w !! p = None) /\
  (absent_paths (files w) = [] <->
   forall p, In p (map fst required_files) -> is_Some (files w !! p)).
Proof.
  split; [|split].
  - rewrite check_required_lines. reflexivity.
  - intros p. apply absent_paths_exact.
  - apply absent_paths_nil.
Qed.






(** X17.  The three outcomes of the config check.  vercel.json absent: the
    check returns and prints the file-not-found line only.  Present but not
    JSON: it returns and prints the invalid-JSON line with the decoder's
    message only.  Decoded to an object: it returns and prints the valid-JSON
    line, then "Has required builds and routes" exactly when both keys are
    present, "Missing builds or routes configuration" otherwise. *)
Theorem config_check_reports (E : Env) (w : World) :
  (config_of E (files w) = ConfigAbsent ->
   fst (check_config E w) = Ret tt /\
   printed_by (check_config E) w = [config_not_found_line]) /\
  (forall msg, config_of E (files w) = ConfigInvalid msg ->
   fst (check_config E w) = Ret tt /\
   printed_by (check_config E) w = ["❌ vercel.json - Invalid JSON: " ++ msg]) /\
  (forall d, config_of E (files w) = ConfigParsed (JDict d) ->
   fst (check_config E w) = Ret tt /\
   printed_by (check_config E) w =
     [config_valid_line;
      if bool_decide (is_Some (dict_lookup "builds" d) /\ is_Some (dict_lookup "routes" d))
      then config_sections_line else config_no_sections_line]).
Proof.
  split; [|split].
  - intros Hc. rewrite check_config_spec, Hc. split; [reflexivity|].
    apply printed_by_app. rewrite check_config_spec, Hc. reflexivity.
  - intros msg Hc. rewrite check_config_spec, Hc. split; [reflexivity|].
    apply printed_by_app. rewrite check_config_spec, Hc. reflexivity.
  - intros d Hc. rewrite check_config_spec, Hc. cbn [py_contains]. split; [reflexivity|].
    apply printed_by_app. rewrite check_config_spec, Hc. cbn [py_contains snd stdout].
    destruct (dict_lookup "builds" d) as [x|], (dict_lookup "routes" d) as [y|];
      cbn [andb].
    + rewrite bool_decide_eq_true_2; [reflexivity | split; eexists; reflexivity].
    + rewrite bool_decide_eq_false_2; [reflexivity | intros [_ [z Hz]]; discriminate Hz].
    + rewrite bool_decide_eq_false_2; [reflexivity | intros [[z Hz] _]; discriminate Hz].
    + rewrite bool_decide_eq_false_2; [reflexivity | intros [[z Hz] _]; discriminate Hz].
Qed.



Lemma prefix_append n post : String.prefix n (n ++ post) = true.
Proof.
  induction n as [|a n IH]; [destruct post; reflexivity|].
  simpl.
  destruct (ascii_dec a a) as [_|Hne]; [exact IH | destruct (Hne eq_refl)].
Qed.

Lemma prefix_split n h : String.prefix n h = true -> exists post, h = n ++ post.
Proof.
  revert h. induction n as [|a n IH]; intros h H.
  - exists h. reflexivity.
  - destruct h as [|b h]; [discriminate H|]. simpl in H.
    destruct (ascii_dec a b) as [->|_]; [|discriminate H].
    destruct (IH h H) as [post ->]. exists post. reflexivity.
Qed.

Lemma string_app_assoc (a b c : string) : (a ++ b) ++ c = a ++ (b ++ c).
Proof.
  induction a as [|x a IH]; [reflexivity|].
  change (String x ((a ++ b) ++ c) = String x (a ++ (b ++ c))). f_equal. exact IH.
Qed.

(** The substring test, characterised: [in] on two strings. *)
Lemma is_substring_iff n h :
  is_substring n h = true <-> exists pre post, h = pre ++ n ++ post.
Proof.
  split.
  - induction h as [|c h IH]; cbn [is_substring]; intros H.
    + rewrite orb_false_r in H. destruct (prefix_split _ _ H) as [post Hp].
      exists EmptyString, post. exact Hp.
    + apply orb_true_iff in H. destruct H as [H|H].
      * destruct (prefix_split _ _ H) as [post Hp]. exists EmptyString, post. exact Hp.
      * destruct (IH H) as (pre & post & ->). exists (String c pre), post. reflexivity.
  - intros (pre & post & ->). induction pre as [|c pre IH].
    + change (EmptyString ++ n ++ post) with (n ++ post).
      pose proof (prefix_append n post) as Hp.
      destruct (n ++ post); cbn [is_substring]; rewrite Hp; reflexivity.
    + change (String c pre ++ n ++ post) with (String c (pre ++ n ++ post)).
      cbn [is_substring]. rewrite IH. apply orb_true_r.
Qed.

Lemma is_substring_suffix_part a b h :
  is_substring (a ++ b) h = true -> is_substring b h = true.
Proof.
  rewrite !is_substring_iff. intros (pre & post & ->).
  exists (pre ++ a), post. rewrite !string_app_assoc. reflexivity.
Qed.

(** X19.  The import check is a substring test on the raw text: a file that
    can be read and mentions UploadFile is reported as having the File
    import, whether or not File is imported on its own. *)
Theorem uploadfile_counts_as_file (E : Env) (w : World) (content : string) :
  files w !! "api/index.py" = Some content ->
  read_fault E (files w) "api/index.py" = None ->
  is_substring "UploadFile" content = true ->
  In "✅ api/index.py - Has File import" (printed_by (check_imports E) w).
Proof.
  intros Hc Hr Hup.
  assert (Hfile : is_substring "File" content = true)
    by (apply (is_substring_suffix_part "Upload" "File"); exact Hup).
  assert (Hrun : check_imports E w =
                 (Ret tt, MkWorld (files w)
                            (stdout w ++ map (import_line content) required_imports)
                            (sent w))).
  { rewrite check_imports_spec, Hc, Hr. reflexivity. }
  rewrite (printed_by_app _ _ _ (f_equal (fun r => stdout (snd r)) Hrun)).
  unfold required_imports. cbn [map]. right. right. left.
  unfold import_line. rewrite Hfile. reflexivity.
Qed.

Lemma uploadfile_counts_as_file_witness :
  In "✅ api/index.py - Has File import"
     (printed_by (check_imports healthy) upload_only_project).
Proof.
  apply (uploadfile_counts_as_file healthy upload_only_project
           "from fastapi import UploadFile").
  - reflexivity.
  - reflexivity.
  - vm_compute. reflexivity.
Defined.

Lemma console_only_check_required l acc : console_only (check_required l acc).
Proof. intros w. rewrite check_required_lines. eexists. reflexivity. Qed.

Lemma world_unchanged w : exists lines, w = MkWorld (files w) (stdout w ++ lines) (sent w).
Proof. exists []. rewrite app_nil_r. destruct w; reflexivity. Qed.

Lemma console_only_check_config E : console_only (check_config E).
Proof.
  intros w. rewrite check_config_spec.
  destruct (config_of E (files w)) as [|msg|v|e]; [eexists; reflexivity ..| |].
  - destruct v; cbn [py_contains]; eexists; reflexivity.
  - destruct (exn_class_eqb (exn_cls e) FileNotFoundError); [eexists; reflexivity|].
    destruct (exn_class_eqb (exn_cls e) JSONDecodeError); [eexists; reflexivity|].
    apply world_unchanged.
Qed.

Lemma console_only_check_imports E : console_only (check_imports E).
Proof.
  intros w. rewrite check_imports_spec.
  destruct (files w !! "api/index.py") as [content|]; [|eexists; reflexivity].
  destruct (read_fault E (files w) "api/index.py") as [e|]; [|eexists; reflexivity].
  destruct (exn_class_eqb (exn_cls e) FileNotFoundError); [eexists; reflexivity|].
  apply world_unchanged.
Qed.

(** X20.  The validator only prints: whether it returns a verdict or raises,
    it changes no file and issues no request. *)
Theorem validator_only_prints (E : Env) (w : World) :
  exists lines,
    snd (validate_vercel_files E w) = MkWorld (files w) (stdout w ++ lines) (sent w).
Proof.
  revert w. change (console_only (validate_vercel_files E)).
  unfold validate_vercel_files.
  apply console_only_bind; [apply console_only_print | intros _].
  apply console_only_bind; [apply console_only_check_required | intros missing_files].
  apply console_only_bind; [apply console_only_check_config | intros _].
  apply console_only_bind; [apply console_only_check_imports | intros _].
  do 3 (apply console_only_bind; [apply console_only_print | intros _]).
  destruct missing_files as [|q qs].
  - do 10 (apply console_only_bind; [apply console_only_print | intros _]).
    apply console_only_ret.
  - apply console_only_bind; [apply console_only_print | intros _].
    apply console_only_ret.
Qed.
